(** * Study-plan allocation engine: a shallow embedding of [src/utils/scheduling.ts]
    and [src/utils/lock-day-management.ts].

    Conventions of the embedding.
    - Hours are JavaScript numbers in the source; they are exact rationals
      ([Q]) here, with [Math.floor], [Math.round] and [Math.ceil] written out.
    - A calendar date (an ISO string [YYYY-MM-DD] in the source) is its day
      number since 1970-01-01 ([Z]); string comparison of well-formed ISO dates
      is comparison of day numbers, and [setDate(getDate() + k)] adds [k].
      The environment's time zone is taken to be UTC, so that the local and
      the UTC calendar fields the source mixes coincide.
    - A clock time (a string [HH:MM]) is its offset in minutes since midnight
      ([timeStringToMinutes] is the identity of the model).
    - The wall clock ([new Date()], [getLocalDateString()]) is an explicit
      [Clock] argument, constant during one call. *)

From Stdlib Require Import ZArith QArith Qround Qminmax List String Bool Lia Lqa.
From Stdlib Require Import Permutation.
Import ListNotations.

Local Open Scope Z_scope.

(* ------------------------------------------------------------------ *)
(** ** Data model *)

Definition Date := Z.
Definition Time := Q.
Bind Scope Z_scope with Date.
Bind Scope Q_scope with Time.

Record Clock := mkClock {
  today : Date;      (* getLocalDateString() *)
  nowMs : Z          (* new Date().getTime() *)
}.

Definition msPerDay : Z := 1000 * 60 * 60 * 24.

(** [new Date(isoDate).getTime()] *)
Definition dateMs (d : Date) : Z := d * msPerDay.

(** [new Date(isoDate).getDay()]: 1970-01-01 was a Thursday. *)
Definition getDay (d : Date) : Z := (d + 4) mod 7.

Inductive SessionStatus :=
  scheduled | completed | skipped | missed | rescheduled | overdue.

Definition SessionStatus_eqb (a b : SessionStatus) : bool :=
  match a, b with
  | scheduled, scheduled | completed, completed | skipped, skipped
  | missed, missed | rescheduled, rescheduled | overdue, overdue => true
  | _, _ => false
  end.

Inductive TaskStatus := pending | taskCompleted | taskOther.

Inductive PlanMode := modeEven | modeBalanced | modeEisenhower | modeOther.

Inductive Strategy := frontLoad | even | backLoad.

(** [sessionNumber] is optional in the source ([session.sessionNumber || 1]):
    [None] is [undefined]. *)
Record StudySession := mkSession {
  taskId : string;
  scheduledTime : Date * Time;
  startTime : Time;
  endTime : Time;
  allocatedHours : Q;
  sessionNumber : option Z;
  isFlexible : bool;
  status : SessionStatus;
  done : bool;
  isManualOverride : option bool;
  originalTime : option Time;
  originalDate : option Date;
  rescheduledAt : option Z
}.

(** The plan identifier is [`plan-${date}`] for plans the engine creates. *)
Inductive PlanId := planOf (d : Date) | planNamed (s : string).

(** [isLocked] is optional in the source and only tested for truthiness; an
    absent flag is [false]. *)
Record StudyPlan := mkPlan {
  planId : PlanId;
  date : Date;
  plannedTasks : list StudySession;
  totalStudyHours : Q;
  availableHours : Q;
  isLocked : bool
}.

Record Task := mkTask {
  task_id : string;
  task_title : string;
  estimatedHours : Q;
  deadline : Date;
  importance : bool;
  task_status : TaskStatus
}.

(** [Task & { remainingHours: number }] *)
Record TaskR := mkTaskR {
  task : Task;
  remainingHours : Q
}.

Record FixedCommitment := mkCommitment {
  c_id : string;
  c_startTime : Time;
  c_endTime : Time;
  recurring : bool;
  daysOfWeek : list Z;
  specificDates : option (list Date);
  deletedOccurrences : option (list Date);
  modifiedOccurrences : list (Date * (option Time * option Time))
}.

Record UserSettings := mkSettings {
  workDays : list Z;
  dailyAvailableHours : Q;
  bufferDays : Z;
  studyWindowStartHour : Q;
  studyWindowEndHour : Q;
  minSessionLength : Q;
  studyPlanMode : PlanMode
}.

Record TimeSlot := mkSlot {
  slot_start : Time;
  slot_end : Time;
  duration : Q
}.

(* ------------------------------------------------------------------ *)
(** ** JavaScript arithmetic on exact rationals *)

Local Open Scope Q_scope.

Definition Qltb (a b : Q) : bool := negb (Qle_bool b a).
Definition Qgeb (a b : Q) : bool := Qle_bool b a.

Definition jsFloor (x : Q) : Q := inject_Z (Qfloor x).
Definition jsCeil (x : Q) : Q := inject_Z (Qceiling x).
(** [Math.round] rounds half up. *)
Definition jsRound (x : Q) : Q := inject_Z (Qfloor (x + (1 # 2))).
Definition jsMax (a b : Q) : Q := if Qle_bool a b then b else a.
Definition jsMin (a b : Q) : Q := if Qle_bool a b then a else b.

Definition ofNat (n : nat) : Q := inject_Z (Z.of_nat n).

(** [xs.reduce((sum, x) => sum + x, 0)] *)
Definition sumQ (xs : list Q) : Q := fold_left Qplus xs 0%Q.

(** [Array.prototype.find] *)
Definition findPlan (d : Date) (plans : list StudyPlan) : option StudyPlan :=
  find (fun p => (date p =? d)%Z) plans.

(** [Array.prototype.includes] on numbers *)
Definition includesZ (x : Z) (l : list Z) : bool := existsb (Z.eqb x) l.

(** [opt?.includes(x)]: [undefined] is falsy. *)
Definition optIncludes (x : Z) (l : option (list Z)) : bool :=
  match l with Some l => includesZ x l | None => false end.

(** [l[i] = v] for an index in range; out of range nothing is written. *)
Fixpoint setNth {A : Type} (l : list A) (i : nat) (v : A) : list A :=
  match l, i with
  | [], _ => []
  | _ :: r, O => v :: r
  | x :: r, S i => x :: setNth r i v
  end.

(** Stable insertion sort, as [Array.prototype.sort] with the comparator
    [leb a b = (cmp(a, b) <= 0)]. *)
Section StableSort.
Context {A : Type} (leb : A -> A -> bool).

Fixpoint insertSorted (x : A) (l : list A) : list A :=
  match l with
  | [] => [x]
  | y :: r => if leb x y then x :: y :: r else y :: insertSorted x r
  end.

Definition stableSort (l : list A) : list A :=
  fold_right insertSorted [] l.
End StableSort.

(* ------------------------------------------------------------------ *)
(** ** Distribution strategies *)

(** The remainder loop of [distributeEvenly]:
    [for (i = 0; i < days && remainingToDistribute > 0; i++)]. *)
Fixpoint distributeRemainder (distribution : list Q) (remainingToDistribute : Q)
  : list Q :=
  match distribution with
  | [] => []
  | x :: rest =>
      if Qltb 0 remainingToDistribute then
        let increment := jsMin (1 # 4) remainingToDistribute in
        (x + increment)
          :: distributeRemainder rest
               (jsRound ((remainingToDistribute - increment) * 100) / 100)
      else x :: rest
  end.

Definition distributeEvenly (totalHours : Q) (days : nat) : list Q :=
  let baseHours := jsFloor ((totalHours * 100) / ofNat days) / 100 in
  let remainder := jsRound ((totalHours - baseHours * ofNat days) * 100) / 100 in
  distributeRemainder (repeat baseHours days) remainder.

(** [distribution[i] = v]; every index the source writes is in range
    (see [thirds_in_range]), so the array is never extended. *)
Definition arraySet (l : list Q) (i : nat) (v : Q) : list Q := setNth l i v.

(** [for (i = 0; i < n; i++) distribution[off + i] = daily[i] || 0] *)
Definition fillRange (distribution : list Q) (off : nat) (daily : list Q) (n : nat)
  : list Q :=
  fold_left (fun dist i => arraySet dist (off + i) (nth i daily 0))
            (seq 0 n) distribution.

Definition ceilDiv3 (n : nat) : nat := Z.to_nat (Qceiling (ofNat n / 3)).

(** The shared body of [distributeFrontLoad] and [distributeBackLoad], which
    differ in the three weights only. *)
Definition distributeThirds (w1 w2 w3 : Q) (totalHours : Q) (days : nat) : list Q :=
  let distribution := repeat 0 days in
  let firstThird := ceilDiv3 days in
  let secondThird := ceilDiv3 (days * 2) in
  let firstThirdHours := totalHours * w1 in
  let secondThirdHours := totalHours * w2 in
  let finalThirdHours := totalHours * w3 in
  let firstThirdDaily := distributeEvenly firstThirdHours firstThird in
  let distribution := fillRange distribution 0 firstThirdDaily firstThird in
  let secondThirdDays := (secondThird - firstThird)%nat in
  let distribution :=
    if (0 <? secondThirdDays)%nat then
      fillRange distribution firstThird
                (distributeEvenly secondThirdHours secondThirdDays) secondThirdDays
    else distribution in
  let finalThirdDays := (days - secondThird)%nat in
  if (0 <? finalThirdDays)%nat then
    fillRange distribution secondThird
              (distributeEvenly finalThirdHours finalThirdDays) finalThirdDays
  else distribution.

Definition distributeFrontLoad : Q -> nat -> list Q :=
  distributeThirds (7 # 10) (2 # 10) (1 # 10).

Definition distributeBackLoad : Q -> nat -> list Q :=
  distributeThirds (1 # 10) (2 # 10) (7 # 10).

Definition calculateDailyHoursDistribution
  (totalHours : Q) (availableDays : nat) (strategy : Strategy) : list Q :=
  match availableDays with
  | O => []
  | _ =>
      match strategy with
      | frontLoad => distributeFrontLoad totalHours availableDays
      | backLoad => distributeBackLoad totalHours availableDays
      | even => distributeEvenly totalHours availableDays
      end
  end.

(* ------------------------------------------------------------------ *)
(** ** Interval arithmetic and the availability engine *)

Record Interval := mkInterval { i_start : Q; i_end : Q }.

Definition addHoursToTime (timeString : Time) (hours : Q) : Time :=
  timeString + hours * 60.

(** [settings.minSessionLength || 15] *)
Definition minSessionLengthOr15 (settings : UserSettings) : Q :=
  if Qeq_bool (minSessionLength settings) 0 then 15 else minSessionLength settings.

Definition lookupOccurrence (d : Date) (l : list (Date * (option Time * option Time)))
  : option (option Time * option Time) :=
  option_map snd (find (fun e => (fst e =? d)%Z) l).

(** The body of [fixedCommitments.forEach] in [getDailyAvailableTimeSlots]:
    the busy interval a commitment contributes on [d], if any. *)
Definition commitmentInterval (d : Date) (commitment : FixedCommitment)
  : option Interval :=
  let dayOfWeek := getDay d in
  let shouldInclude :=
    if recurring commitment && includesZ dayOfWeek (daysOfWeek commitment) then true
    else if negb (recurring commitment) && optIncludes d (specificDates commitment)
         then true else false in
  if shouldInclude && negb (optIncludes d (deletedOccurrences commitment)) then
    let modifiedSession := lookupOccurrence d (modifiedOccurrences commitment) in
    let startTime :=
      match modifiedSession with
      | Some (Some t, _) => t
      | _ => c_startTime commitment
      end in
    let endTime :=
      match modifiedSession with
      | Some (_, Some t) => t
      | _ => c_endTime commitment
      end in
    Some (mkInterval startTime endTime)
  else None.

Definition commitmentIntervals (d : Date) (fixedCommitments : list FixedCommitment)
  : list Interval :=
  flat_map (fun c => match commitmentInterval d c with
                     | Some i => [i]
                     | None => []
                     end) fixedCommitments.

(** One step of the merge loop; [merged] is kept with its last element first. *)
Definition mergeStep (merged : list Interval) (interval : Interval) : list Interval :=
  match merged with
  | [] => [interval]
  | lastI :: r =>
      if Qltb (i_end lastI) (i_start interval) then interval :: lastI :: r
      else mkInterval (i_start lastI) (jsMax (i_end lastI) (i_end interval)) :: r
  end.

Definition mergeIntervals (busyIntervals : list Interval) : list Interval :=
  let sorted := stableSort (fun a b => Qle_bool (i_start a) (i_start b)) busyIntervals in
  rev (fold_left mergeStep sorted []).

(** The walk over the merged intervals, then the final gap. *)
Fixpoint freeSlots (minHours : Q) (studyWindowEnd : Q) (currentTime : Q)
  (merged : list Interval) : list TimeSlot :=
  match merged with
  | [] =>
      if Qltb currentTime studyWindowEnd then
        let duration := (studyWindowEnd - currentTime) / 60 in
        if Qgeb duration minHours
        then [mkSlot currentTime studyWindowEnd duration] else []
      else []
  | interval :: rest =>
      let here :=
        if Qltb currentTime (i_start interval) then
          let duration := (i_start interval - currentTime) / 60 in
          if Qgeb duration minHours
          then [mkSlot currentTime (i_start interval) duration] else []
        else [] in
      here ++ freeSlots minHours studyWindowEnd
                        (jsMax currentTime (i_end interval)) rest
  end.

Definition planIsLocked (dayPlan : option StudyPlan) : bool :=
  match dayPlan with Some p => isLocked p | None => false end.

Definition notSkipped (s : StudySession) : bool :=
  negb (SessionStatus_eqb (status s) skipped).

Definition getDailyAvailableTimeSlots (d : Date) (studyPlans : list StudyPlan)
  (settings : UserSettings) (fixedCommitments : list FixedCommitment)
  : list TimeSlot :=
  let dayPlan := findPlan d studyPlans in
  if planIsLocked dayPlan then []
  else
    let existingSessions :=
      match dayPlan with
      | Some p => filter notSkipped (plannedTasks p)
      | None => []
      end in
    let busyIntervals :=
      map (fun s => mkInterval (startTime s) (endTime s)) existingSessions
      ++ commitmentIntervals d fixedCommitments in
    freeSlots (minSessionLengthOr15 settings / 60)
              (studyWindowEndHour settings * 60)
              (studyWindowStartHour settings * 60)
              (mergeIntervals busyIntervals).

Record FoundSlot := mkFound {
  f_date : Date;
  f_startTime : Time;
  f_endTime : Time
}.

(** The day loop of [findNextAvailableTimeSlot] over the remaining offsets. *)
Fixpoint findSlotFrom (requiredHours : Q) (startDate : Date)
  (studyPlans : list StudyPlan) (settings : UserSettings)
  (fixedCommitments : list FixedCommitment) (offsets : list nat)
  : option FoundSlot :=
  match offsets with
  | [] => None
  | dayOffset :: rest =>
      let dateString := (startDate + Z.of_nat dayOffset)%Z in
      if negb (includesZ (getDay dateString) (workDays settings)) then
        findSlotFrom requiredHours startDate studyPlans settings fixedCommitments rest
      else if planIsLocked (findPlan dateString studyPlans) then
        findSlotFrom requiredHours startDate studyPlans settings fixedCommitments rest
      else
        match find (fun slot => Qgeb (duration slot) requiredHours)
                   (getDailyAvailableTimeSlots dateString studyPlans settings
                                               fixedCommitments) with
        | Some slot =>
            Some (mkFound dateString (slot_start slot)
                          (addHoursToTime (slot_start slot) requiredHours))
        | None =>
            findSlotFrom requiredHours startDate studyPlans settings
                         fixedCommitments rest
        end
  end.

Definition findNextAvailableTimeSlot (requiredHours : Q) (startDate : Date)
  (studyPlans : list StudyPlan) (settings : UserSettings)
  (fixedCommitments : list FixedCommitment) (maxDaysToSearch : Z)
  : option FoundSlot :=
  findSlotFrom requiredHours startDate studyPlans settings fixedCommitments
               (seq 0 (Z.to_nat maxDaysToSearch)).

(* ------------------------------------------------------------------ *)
(** ** Remaining-work accountant *)

Definition optZ_eqb (a b : option Z) : bool :=
  match a, b with
  | Some x, Some y => (x =? y)%Z
  | None, None => true
  | _, _ => false
  end.

(** [s.taskId === session.taskId && s.sessionNumber === session.sessionNumber] *)
Definition sameSessionKey (session s : StudySession) : bool :=
  String.eqb (taskId s) (taskId session)
  && optZ_eqb (sessionNumber s) (sessionNumber session).

Definition isSessionLocked (session : StudySession) (studyPlans : list StudyPlan)
  : bool :=
  planIsLocked
    (find (fun plan => existsb (sameSessionKey session) (plannedTasks plan))
          studyPlans).

Definition hoursOf (sessions : list StudySession) : Q :=
  sumQ (map allocatedHours sessions).

Definition calculateRemainingTaskHours (t : Task) (studyPlans : list StudyPlan) : Q :=
  let taskSessions :=
    flat_map (fun plan =>
                filter (fun session => String.eqb (taskId session) (task_id t))
                       (plannedTasks plan)) studyPlans in
  let allocated :=
    hoursOf
      (filter (fun session =>
                 done session
                 || SessionStatus_eqb (status session) completed
                 || SessionStatus_eqb (status session) skipped
                 || isSessionLocked session studyPlans) taskSessions) in
  jsMax 0 (estimatedHours t - allocated).

(** [plannedTasks.filter(s => s.status !== 'skipped').reduce(...)] *)
Definition recomputeTotal (sessions : list StudySession) : Q :=
  hoursOf (filter notSkipped sessions).

(** The filter of [removeUnlockedTaskSessions] (and of the merge pass): a
    session survives if it is another task's, or done, completed or skipped. *)
Definition keptOnPurge (tid : string) (session : StudySession) : bool :=
  negb (String.eqb (taskId session) tid)
  || done session
  || SessionStatus_eqb (status session) completed
  || SessionStatus_eqb (status session) skipped.

Definition purgePlan (tid : string) (plan : StudyPlan) : StudyPlan :=
  if isLocked plan then plan
  else
    let kept := filter (keptOnPurge tid) (plannedTasks plan) in
    mkPlan (planId plan) (date plan) kept (recomputeTotal kept)
           (availableHours plan) (isLocked plan).

Definition removeUnlockedTaskSessions (tid : string) (studyPlans : list StudyPlan)
  : list StudyPlan :=
  map (purgePlan tid) studyPlans.

Definition getUnlockedTaskSessions (tid : string) (studyPlans : list StudyPlan)
  : list (StudySession * Date) :=
  flat_map (fun plan =>
              if isLocked plan then []
              else map (fun s => (s, date plan))
                       (filter (fun s => negb (keptOnPurge tid s))
                               (plannedTasks plan))) studyPlans.

(* ------------------------------------------------------------------ *)
(** ** Plan generator *)

Definition bufferedDeadline (settings : UserSettings) (t : Task) : Date :=
  if (0 <? bufferDays settings)%Z then (deadline t - bufferDays settings)%Z
  else deadline t.

(** [while (currentDate <= deadline)], starting today. *)
Definition getAvailableDaysForTask (clock : Clock) (t : TaskR)
  (workingPlans : list StudyPlan) (settings : UserSettings) : list Date :=
  let last := bufferedDeadline settings (task t) in
  filter (fun dateString =>
            includesZ (getDay dateString) (workDays settings)
            && negb (planIsLocked (findPlan dateString workingPlans)))
         (map (fun k => (today clock + Z.of_nat k)%Z)
              (seq 0 (Z.to_nat (last - today clock + 1)))).

(** [session.taskId === taskId && session.sessionNumber] (a truthy number) *)
Definition numberedFor (tid : string) (session : StudySession) : option Z :=
  if String.eqb (taskId session) tid then
    match sessionNumber session with
    | Some n => if (n =? 0)%Z then None else Some n
    | None => None
    end
  else None.

Definition getNextSessionNumber (tid : string) (studyPlans : list StudyPlan) : Z :=
  let maxSessionNumber :=
    fold_left
      (fun m plan =>
         fold_left (fun m session =>
                      match numberedFor tid session with
                      | Some n => Z.max m n
                      | None => m
                      end) (plannedTasks plan) m)
      studyPlans 0%Z in
  (maxSessionNumber + 1)%Z.

Definition newPlan (d : Date) (settings : UserSettings) : StudyPlan :=
  mkPlan (planOf d) d [] 0 (dailyAvailableHours settings) false.

(** [plan.plannedTasks.push(session)] followed by the recomputation of
    [totalStudyHours]. *)
Definition pushSession (session : StudySession) (plan : StudyPlan) : StudyPlan :=
  let sessions := plannedTasks plan ++ [session] in
  mkPlan (planId plan) (date plan) sessions (recomputeTotal sessions)
         (availableHours plan) (isLocked plan).

(** In-place update of the plan object [find] returns: the first plan dated [d]. *)
Fixpoint updatePlan (d : Date) (f : StudyPlan -> StudyPlan)
  (plans : list StudyPlan) : list StudyPlan :=
  match plans with
  | [] => []
  | p :: r => if (date p =? d)%Z then f p :: r else p :: updatePlan d f r
  end.

Definition addSessionToPlan (session : StudySession) (d : Date)
  (workingPlans : list StudyPlan) (settings : UserSettings) : list StudyPlan :=
  match findPlan d workingPlans with
  | None => workingPlans ++ [pushSession session (newPlan d settings)]
  | Some plan =>
      if isLocked plan then workingPlans
      else updatePlan d (pushSession session) workingPlans
  end.

(** One iteration of the scheduling loop; the state is the working plans and
    the running [sessionNumber]. *)
Definition scheduleDay (t : TaskR) (settings : UserSettings)
  (fixedCommitments : list FixedCommitment)
  (st : list StudyPlan * Z) (day : Date * Q) : list StudyPlan * Z :=
  let '(workingPlans, sessionNumber) := st in
  let '(dayDate, hoursForDay) := day in
  if Qltb 0 hoursForDay then
    match findNextAvailableTimeSlot hoursForDay dayDate workingPlans settings
                                    fixedCommitments 1 with
    | Some timeSlot =>
        if (f_date timeSlot =? dayDate)%Z then
          let session :=
            mkSession (task_id (task t)) (dayDate, f_startTime timeSlot)
                      (f_startTime timeSlot) (f_endTime timeSlot) hoursForDay
                      (Some sessionNumber) true scheduled false None None None None in
          (addSessionToPlan session dayDate workingPlans settings,
           (sessionNumber + 1)%Z)
        else st
    | None => st
    end
  else st.

Definition scheduleTaskWithStrategy (clock : Clock) (t : TaskR)
  (strategy : Strategy) (workingPlans : list StudyPlan) (settings : UserSettings)
  (fixedCommitments : list FixedCommitment) : list StudyPlan :=
  if Qle_bool (remainingHours t) 0 then workingPlans
  else
    let availableDays := getAvailableDaysForTask clock t workingPlans settings in
    match availableDays with
    | [] => workingPlans
    | _ =>
        let dailyHoursDistribution :=
          calculateDailyHoursDistribution (remainingHours t)
                                          (List.length availableDays) strategy in
        let sessionNumber := getNextSessionNumber (task_id (task t)) workingPlans in
        fst (fold_left (scheduleDay t settings fixedCommitments)
                       (combine availableDays dailyHoursDistribution)
                       (workingPlans, sessionNumber))
    end.

Record Quadrants := mkQuadrants {
  importantUrgent : list TaskR;
  importantNotUrgent : list TaskR;
  notImportantUrgent : list TaskR;
  notImportantNotUrgent : list TaskR
}.

(** [Math.ceil((deadline.getTime() - now.getTime()) / msPerDay)] *)
Definition daysUntilDeadlineCeil (clock : Clock) (d : Date) : Z :=
  Qceiling (inject_Z (dateMs d - nowMs clock) / inject_Z msPerDay).

Definition isUrgent (clock : Clock) (t : TaskR) : bool :=
  (daysUntilDeadlineCeil clock (deadline (task t)) <=? 3)%Z.

Definition categorizeTasksEisenhower (clock : Clock) (tasks : list TaskR) : Quadrants :=
  mkQuadrants
    (filter (fun t => importance (task t) && isUrgent clock t) tasks)
    (filter (fun t => importance (task t) && negb (isUrgent clock t)) tasks)
    (filter (fun t => negb (importance (task t)) && isUrgent clock t) tasks)
    (filter (fun t => negb (importance (task t)) && negb (isUrgent clock t)) tasks).

Definition Q_same (a b : Q) : bool :=
  (Qnum a =? Qnum b)%Z && (Qden a =? Qden b)%positive.

Definition TaskStatus_eqb (a b : TaskStatus) : bool :=
  match a, b with
  | pending, pending | taskCompleted, taskCompleted | taskOther, taskOther => true
  | _, _ => false
  end.

(** [quadrant.includes(task)] compares object identity in the source. Tasks
    with the same fields are classified alike, so comparing fields selects
    the same quadrant. *)
Definition TaskR_eqb (a b : TaskR) : bool :=
  String.eqb (task_id (task a)) (task_id (task b))
  && String.eqb (task_title (task a)) (task_title (task b))
  && Q_same (estimatedHours (task a)) (estimatedHours (task b))
  && (deadline (task a) =? deadline (task b))%Z
  && Bool.eqb (importance (task a)) (importance (task b))
  && TaskStatus_eqb (task_status (task a)) (task_status (task b))
  && Q_same (remainingHours a) (remainingHours b).

Definition includesTask (t : TaskR) (l : list TaskR) : bool :=
  existsb (TaskR_eqb t) l.

Definition getTaskDistributionStrategy (t : TaskR) (quadrants : Quadrants) : Strategy :=
  if includesTask t (importantUrgent quadrants) then frontLoad
  else if includesTask t (importantNotUrgent quadrants) then even
  else if includesTask t (notImportantUrgent quadrants) then frontLoad
  else backLoad.

(** [tasks.forEach(task => scheduleTaskWithStrategy(task, strategyOf task, ...))] *)
Definition scheduleAll (clock : Clock) (strategyOf : TaskR -> Strategy)
  (tasks : list TaskR) (workingPlans : list StudyPlan) (settings : UserSettings)
  (fixedCommitments : list FixedCommitment) : list StudyPlan :=
  fold_left (fun plans t =>
               scheduleTaskWithStrategy clock t (strategyOf t) plans settings
                                        fixedCommitments)
            tasks workingPlans.

Definition generateEisenhowerPlan (clock : Clock) (tasks : list TaskR)
  (workingPlans : list StudyPlan) (settings : UserSettings)
  (fixedCommitments : list FixedCommitment) : list StudyPlan :=
  let quadrants := categorizeTasksEisenhower clock tasks in
  let priorityOrder :=
    importantUrgent quadrants ++ importantNotUrgent quadrants
    ++ notImportantUrgent quadrants ++ notImportantNotUrgent quadrants in
  scheduleAll clock (fun t => getTaskDistributionStrategy t quadrants)
              priorityOrder workingPlans settings fixedCommitments.

Definition generateBalancedPriorityPlan (clock : Clock) (tasks : list TaskR)
  (workingPlans : list StudyPlan) (settings : UserSettings)
  (fixedCommitments : list FixedCommitment) : list StudyPlan :=
  let importantTasks := filter (fun t => importance (task t)) tasks in
  let regularTasks := filter (fun t => negb (importance (task t))) tasks in
  let workingPlans :=
    scheduleAll clock (fun _ => even) importantTasks workingPlans settings
                fixedCommitments in
  scheduleAll clock (fun _ => even) regularTasks workingPlans settings
              fixedCommitments.

(** The comparator of [generateEvenDistributionPlan], as [cmp(a, b) <= 0]:
    important tasks first, then by deadline. *)
Definition evenOrderLeb (a b : TaskR) : bool :=
  if negb (Bool.eqb (importance (task a)) (importance (task b)))
  then importance (task a)
  else (dateMs (deadline (task a)) - dateMs (deadline (task b)) <=? 0)%Z.

Definition generateEvenDistributionPlan (clock : Clock) (tasks : list TaskR)
  (workingPlans : list StudyPlan) (settings : UserSettings)
  (fixedCommitments : list FixedCommitment) : list StudyPlan :=
  let sortedTasks := stableSort evenOrderLeb tasks in
  scheduleAll clock (fun _ => even) sortedTasks workingPlans settings
              fixedCommitments.

Definition isPending (t : Task) : bool := TaskStatus_eqb (task_status t) pending.

Definition tasksWithRemainingHours (tasks : list Task) (workingPlans : list StudyPlan)
  : list TaskR :=
  filter (fun t => Qltb 0 (remainingHours t))
         (map (fun t => mkTaskR t (calculateRemainingTaskHours t workingPlans))
              (filter isPending tasks)).

(** [tasksWithRemainingHours.forEach(task => removeUnlockedTaskSessions(task.id, workingPlans))] *)
Definition purgeAll (tasks : list TaskR) (workingPlans : list StudyPlan)
  : list StudyPlan :=
  fold_left (fun plans t => removeUnlockedTaskSessions (task_id (task t)) plans)
            tasks workingPlans.

(** [switch (settings.studyPlanMode)] *)
Definition generateByMode (clock : Clock) (tasks : list TaskR)
  (workingPlans : list StudyPlan) (settings : UserSettings)
  (fixedCommitments : list FixedCommitment) : list StudyPlan :=
  match studyPlanMode settings with
  | modeEisenhower =>
      generateEisenhowerPlan clock tasks workingPlans settings fixedCommitments
  | modeBalanced =>
      generateBalancedPriorityPlan clock tasks workingPlans settings
                                   fixedCommitments
  | _ =>
      generateEvenDistributionPlan clock tasks workingPlans settings
                                   fixedCommitments
  end.

(** [workingPlans = JSON.parse(JSON.stringify(existingPlans))] is a deep copy:
    on values it is the identity, and every later update is an update of
    the copy. *)
Definition generateNewStudyPlan (clock : Clock) (tasks : list Task)
  (settings : UserSettings) (fixedCommitments : list FixedCommitment)
  (existingPlans : list StudyPlan) : list StudyPlan :=
  let workingPlans := existingPlans in
  let withRemaining := tasksWithRemainingHours tasks workingPlans in
  match withRemaining with
  | [] => workingPlans
  | _ =>
      let workingPlans := purgeAll withRemaining workingPlans in
      generateByMode clock withRemaining workingPlans settings fixedCommitments
  end.

(* ------------------------------------------------------------------ *)
(** ** Missed-session redistribution *)

Definition checkSessionStatus (clock : Clock) (session : StudySession)
  (planDate : Date) : SessionStatus :=
  if done session || SessionStatus_eqb (status session) completed then completed
  else if SessionStatus_eqb (status session) missed then missed
  else
    let sessionEnd := inject_Z (dateMs planDate) + endTime session * 60000 in
    if (planDate <? today clock)%Z && Qltb sessionEnd (inject_Z (nowMs clock))
    then missed
    else if (planDate =? today clock)%Z
            && Qltb sessionEnd (inject_Z (nowMs clock))
            && negb (done session)
            && negb (SessionStatus_eqb (status session) completed)
    then overdue
    else scheduled.

Record MissedEntry := mkMissed {
  m_session : StudySession;
  m_planDate : Date;
  m_task : Task;
  m_priority : Q
}.

(** The priority computed while collecting missed sessions. The source clamps
    [daysUntilDeadline] with [Math.max(0, ...)] before testing it against 0. *)
Definition missedPriority (clock : Clock) (t : Task) : Q :=
  let priority := 0 in
  let priority := if importance t then priority + 1000 else priority in
  let daysUntilDeadline :=
    jsMax 0 (inject_Z (dateMs (deadline t) - nowMs clock) / inject_Z msPerDay) in
  if Qltb daysUntilDeadline 0 then priority + 2000
  else priority + jsMax 0 (100 - daysUntilDeadline).

Definition findTask (tid : string) (tasks : list Task) : option Task :=
  find (fun t => String.eqb (task_id t) tid) tasks.

Definition collectMissed (clock : Clock) (workingPlans : list StudyPlan)
  (tasks : list Task) : list MissedEntry :=
  flat_map
    (fun plan =>
       if isLocked plan || (today clock <=? date plan)%Z then []
       else
         flat_map
           (fun session =>
              if SessionStatus_eqb (checkSessionStatus clock session (date plan)) missed
                 && notSkipped session
              then
                match findTask (taskId session) tasks with
                | Some t =>
                    if isPending t
                    then [mkMissed session (date plan) t (missedPriority clock t)]
                    else []
                | None => []
                end
              else [])
           (plannedTasks plan))
    workingPlans.

(** [plannedTasks.splice(findIndex(sameKey), 1)] when the index is found. *)
Fixpoint removeFirstByKey (session : StudySession) (l : list StudySession)
  : list StudySession :=
  match l with
  | [] => []
  | s :: r => if sameSessionKey session s then r else s :: removeFirstByKey session r
  end.

Definition spliceSession (session : StudySession) (plan : StudyPlan) : StudyPlan :=
  if existsb (sameSessionKey session) (plannedTasks plan) then
    let sessions := removeFirstByKey session (plannedTasks plan) in
    mkPlan (planId plan) (date plan) sessions (recomputeTotal sessions)
           (availableHours plan) (isLocked plan)
  else plan.

Definition removeOriginal (session : StudySession) (planDate : Date)
  (workingPlans : list StudyPlan) : list StudyPlan :=
  match findPlan planDate workingPlans with
  | Some originalPlan =>
      if isLocked originalPlan then workingPlans
      else updatePlan planDate (spliceSession session) workingPlans
  | None => workingPlans
  end.

Definition rescheduledCopy (clock : Clock) (session : StudySession)
  (planDate : Date) (timeSlot : FoundSlot) : StudySession :=
  mkSession (taskId session) (scheduledTime session)
            (f_startTime timeSlot) (f_endTime timeSlot)
            (allocatedHours session) (sessionNumber session) (isFlexible session)
            rescheduled (done session) (Some false)
            (Some (startTime session)) (Some planDate) (Some (nowMs clock)).

Record MissedState := mkMissedState {
  ms_plans : list StudyPlan;
  ms_moved : list StudySession;
  ms_failed : list StudySession
}.

(** The body of [missedSessions.forEach]. *)
Definition redistributeOne (clock : Clock) (settings : UserSettings)
  (fixedCommitments : list FixedCommitment) (st : MissedState) (e : MissedEntry)
  : MissedState :=
  let session := m_session e in
  let dl := bufferedDeadline settings (m_task e) in
  match findNextAvailableTimeSlot (allocatedHours session) (today clock)
          (ms_plans st) settings fixedCommitments
          (daysUntilDeadlineCeil clock dl) with
  | Some timeSlot =>
      let plans := removeOriginal session (m_planDate e) (ms_plans st) in
      let newSession := rescheduledCopy clock session (m_planDate e) timeSlot in
      mkMissedState (addSessionToPlan newSession (f_date timeSlot) plans settings)
                    (ms_moved st ++ [newSession]) (ms_failed st)
  | None =>
      mkMissedState (ms_plans st) (ms_moved st) (ms_failed st ++ [session])
  end.

Record FeedbackDetails := mkDetails {
  totalMissed : nat;
  successfullyMoved : nat;
  failedToMove : nat;
  conflictsDetected : bool;
  priorityOrderUsed : bool;
  issues : list string;
  suggestions : list string
}.

Record Feedback := mkFeedback {
  success : bool;
  message : string;
  details : FeedbackDetails
}.

Record MissedResult := mkMissedResult {
  updatedPlans : list StudyPlan;
  movedSessions : list StudySession;
  failedSessions : list StudySession;
  feedback : Feedback
}.

(** [missedSessions.sort((a, b) => b.priority - a.priority)] *)
Definition sortMissed (l : list MissedEntry) : list MissedEntry :=
  stableSort (fun a b => Qle_bool (m_priority b - m_priority a) 0) l.

(** The interpolated counts of the messages are left out of the strings. *)
Definition redistributeMissedSessionsWithFeedback (clock : Clock)
  (studyPlans : list StudyPlan) (settings : UserSettings)
  (fixedCommitments : list FixedCommitment) (tasks : list Task) : MissedResult :=
  let workingPlans := studyPlans in
  let missedSessions := collectMissed clock workingPlans tasks in
  match missedSessions with
  | [] =>
      mkMissedResult workingPlans [] []
        (mkFeedback true "No missed sessions found to redistribute."
                    (mkDetails 0 0 0 false false [] []))
  | _ =>
      let st :=
        fold_left (redistributeOne clock settings fixedCommitments)
                  (sortMissed missedSessions)
                  (mkMissedState workingPlans [] []) in
      let moved := ms_moved st in
      let failed := ms_failed st in
      let anyMoved := (0 <? List.length moved)%nat in
      let anyFailed := (0 <? List.length failed)%nat in
      mkMissedResult (ms_plans st) moved failed
        (mkFeedback anyMoved
           (if anyMoved then "Successfully redistributed missed sessions."
            else "Could not redistribute any of the missed sessions.")
           (mkDetails (List.length missedSessions) (List.length moved)
              (List.length failed) anyFailed true
              (if anyFailed
               then ["Some sessions could not be redistributed due to scheduling conflicts"]
               else [])
              (if anyFailed
               then ["Consider increasing daily available hours";
                     "Add more work days to your schedule";
                     "Extend task deadlines if possible"]
               else [])))
  end%string.

(* ------------------------------------------------------------------ *)
(** ** Lock governance *)

Inductive Violation :=
| lockedDayRemoved (d : Date)
| lostLockedStatus (d : Date)
| sessionsAddedOrRemoved (d : Date)
| sessionModified (d : Date).

Definition sessionUnchanged (originalSession : StudySession)
  (updatedSession : option StudySession) : bool :=
  match updatedSession with
  | None => false
  | Some u =>
      Qeq_bool (startTime originalSession) (startTime u)
      && Qeq_bool (endTime originalSession) (endTime u)
      && Qeq_bool (allocatedHours originalSession) (allocatedHours u)
  end.

Definition violationsOf (originalPlan : StudyPlan) (updatedPlans : list StudyPlan)
  : list Violation :=
  if isLocked originalPlan then
    match findPlan (date originalPlan) updatedPlans with
    | None => [lockedDayRemoved (date originalPlan)]
    | Some updatedPlan =>
        (if isLocked updatedPlan then [] else [lostLockedStatus (date originalPlan)])
        ++ (if (List.length (plannedTasks originalPlan)
                =? List.length (plannedTasks updatedPlan))%nat
            then [] else [sessionsAddedOrRemoved (date originalPlan)])
        ++ flat_map
             (fun ix =>
                if sessionUnchanged (snd ix) (nth_error (plannedTasks updatedPlan) (fst ix))
                then [] else [sessionModified (date originalPlan)])
             (combine (seq 0 (List.length (plannedTasks originalPlan)))
                      (plannedTasks originalPlan))
    end
  else [].

Record Integrity := mkIntegrity {
  isValid : bool;
  violations : list Violation
}.

Definition validateLockedDaysIntegrity (originalPlans updatedPlans : list StudyPlan)
  : Integrity :=
  let vs := flat_map (fun p => violationsOf p updatedPlans) originalPlans in
  mkIntegrity (List.length vs =? 0)%nat vs.

Definition isPendingSession (session : StudySession) : bool :=
  negb (done session)
  && negb (SessionStatus_eqb (status session) completed)
  && negb (SessionStatus_eqb (status session) skipped)
  && negb (SessionStatus_eqb (status session) missed).

(** [reason] is a text derived from the count and is left out. *)
Record LockCheck := mkLockCheck {
  canLock : bool;
  pendingSessions : option nat
}.

Definition canLockDay (d : Date) (studyPlans : list StudyPlan) : LockCheck :=
  match findPlan d studyPlans with
  | None => mkLockCheck true None
  | Some plan =>
      let pending := filter isPendingSession (plannedTasks plan) in
      if (0 <? List.length pending)%nat
      then mkLockCheck false (Some (List.length pending))
      else mkLockCheck true None
  end.

(* ------------------------------------------------------------------ *)
(** ** Session merging *)

Definition combinable (session : StudySession) : bool :=
  notSkipped session
  && negb (done session)
  && negb (SessionStatus_eqb (status session) completed).

(** [taskGroups[session.taskId].push(session)], the groups in insertion order
    (task ids are taken not to be canonical array indices, which
    [Object.entries] would list first). *)
Fixpoint addToGroup (groups : list (string * list StudySession))
  (session : StudySession) : list (string * list StudySession) :=
  match groups with
  | [] => [(taskId session, [session])]
  | (k, l) :: r =>
      if String.eqb k (taskId session) then (k, l ++ [session]) :: r
      else (k, l) :: addToGroup r session
  end.

Definition groupByTask (sessions : list StudySession)
  : list (string * list StudySession) :=
  fold_left (fun groups s => if combinable s then addToGroup groups s else groups)
            sessions [].

(** [Math.min(...sessions.map(s => s.sessionNumber || 1))] *)
Definition numberOr1 (session : StudySession) : Z :=
  match sessionNumber session with
  | Some n => if (n =? 0)%Z then 1%Z else n
  | None => 1%Z
  end.

Definition minSessionNumber (first : StudySession) (rest : list StudySession) : Z :=
  fold_left Z.min (map numberOr1 rest) (numberOr1 first).

(** The body of [Object.entries(taskGroups).forEach]; the state is
    [plan.plannedTasks]. *)
Definition combineGroup (settings : UserSettings) (planned : list StudySession)
  (g : string * list StudySession) : list StudySession :=
  let '(tid, sessions) := g in
  if (1 <? List.length sessions)%nat then
    let sessions :=
      stableSort (fun a b => Qle_bool (startTime a) (startTime b)) sessions in
    let totalHours := hoursOf sessions in
    let maxSessionLength := jsMin 4 (dailyAvailableHours settings) in
    let minLength := minSessionLengthOr15 settings / 60 in
    if Qgeb totalHours minLength && Qle_bool totalHours maxSessionLength then
      match sessions with
      | first :: rest =>
          let combinedSession :=
            mkSession (taskId first) (scheduledTime first) (startTime first)
                      (addHoursToTime (startTime first) totalHours) totalHours
                      (Some (minSessionNumber first rest)) (isFlexible first)
                      (status first) (done first) (isManualOverride first)
                      (originalTime first) (originalDate first)
                      (rescheduledAt first) in
          filter (keptOnPurge tid) planned ++ [combinedSession]
      | [] => planned
      end
    else planned
  else planned.

(** The body of [updatedPlans.forEach]: what one plan object becomes. *)
Definition combinePlan (settings : UserSettings) (plan : StudyPlan) : StudyPlan :=
  if isLocked plan then plan
  else
    let sessions :=
      fold_left (combineGroup settings) (groupByTask (plannedTasks plan))
                (plannedTasks plan) in
    mkPlan (planId plan) (date plan) sessions (recomputeTotal sessions)
           (availableHours plan) (isLocked plan).

(** The returned collection, as values, when the plan objects of the input
    array are pairwise distinct. *)
Definition combineSessionsOnSameDay (studyPlans : list StudyPlan)
  (settings : UserSettings) : list StudyPlan :=
  map (combinePlan settings) studyPlans.

(* ------------------------------------------------------------------ *)
(** ** Lock-induced eviction ([lock-day-management.ts]) *)

Definition evictionPriority (clock : Clock) (t : Task) : Q :=
  let priority := if importance t then 1000 else 0 in
  let daysUntilDeadline :=
    inject_Z (dateMs (deadline t) - nowMs clock) / inject_Z msPerDay in
  if Qle_bool daysUntilDeadline 1 then priority + 500
  else if Qle_bool daysUntilDeadline 3 then priority + 300
  else if Qle_bool daysUntilDeadline 7 then priority + 200
  else priority.

Definition collectLocked (clock : Clock) (modifiedPlans : list StudyPlan)
  (tasks : list Task) : list MissedEntry :=
  flat_map
    (fun plan =>
       if isLocked plan && (0 <? List.length (plannedTasks plan))%nat then
         flat_map
           (fun session =>
              match findTask (taskId session) tasks with
              | Some t =>
                  if isPending t
                  then [mkMissed session (date plan) t (evictionPriority clock t)]
                  else []
              | None => []
              end)
           (plannedTasks plan)
       else [])
    modifiedPlans.

(** The scan of [findAvailableTimeSlot] over the sorted busy intervals. *)
Fixpoint firstGap (requiredMinutes : Q) (endOfDay : Q) (currentTime : Q)
  (busy : list Interval) : option (Time * Time) :=
  match busy with
  | [] =>
      if Qgeb (endOfDay - currentTime) requiredMinutes
      then Some (currentTime, currentTime + requiredMinutes) else None
  | interval :: rest =>
      if Qgeb (i_start interval - currentTime) requiredMinutes
      then Some (currentTime, currentTime + requiredMinutes)
      else firstGap requiredMinutes endOfDay
                    (jsMax currentTime (i_end interval)) rest
  end.

Definition findAvailableTimeSlot (requiredHours : Q)
  (existingSessions : list StudySession) (fixedCommitments : list FixedCommitment)
  (settings : UserSettings) (d : Date) : option (Time * Time) :=
  let busyIntervals :=
    map (fun s => mkInterval (startTime s) (endTime s)) existingSessions
    ++ commitmentIntervals d fixedCommitments in
  let sorted :=
    stableSort (fun a b => Qle_bool (i_start a) (i_start b)) busyIntervals in
  firstGap (jsCeil (requiredHours * 60)) (studyWindowEndHour settings * 60)
           (studyWindowStartHour settings * 60) sorted.

(** The day loop of [findBestRedistributionSlot]. *)
Fixpoint bestSlotFrom (clock : Clock) (session : StudySession) (deadlineStr : Date)
  (studyPlans : list StudyPlan) (settings : UserSettings)
  (fixedCommitments : list FixedCommitment) (origin : Date) (offsets : list nat)
  : option (Date * (Time * Time)) :=
  match offsets with
  | [] => None
  | dayOffset :: rest =>
      let targetDateStr := (today clock + Z.of_nat dayOffset)%Z in
      let continue :=
        bestSlotFrom clock session deadlineStr studyPlans settings
                     fixedCommitments origin rest in
      if (deadlineStr <? targetDateStr)%Z then None
      else if negb (includesZ (getDay targetDateStr) (workDays settings)) then continue
      else
        let targetPlan := findPlan targetDateStr studyPlans in
        if planIsLocked targetPlan then continue
        else if (targetDateStr =? origin)%Z then continue
        else
          let existingSessions :=
            match targetPlan with Some p => plannedTasks p | None => [] end in
          let currentLoad := hoursOf existingSessions in
          if Qltb (dailyAvailableHours settings)
                  (currentLoad + allocatedHours session)
          then continue
          else
            match findAvailableTimeSlot (allocatedHours session) existingSessions
                                        fixedCommitments settings targetDateStr with
            | Some timeSlot => Some (targetDateStr, timeSlot)
            | None => continue
            end
  end.

Definition findBestRedistributionSlot (clock : Clock) (session : StudySession)
  (t : Task) (studyPlans : list StudyPlan) (settings : UserSettings)
  (fixedCommitments : list FixedCommitment) (origin : Date)
  : option (Date * (Time * Time)) :=
  bestSlotFrom clock session (bufferedDeadline settings t) studyPlans settings
               fixedCommitments origin (seq 0 14).

(** [plannedTasks.splice(sessionIndex, 1); totalStudyHours -= allocatedHours] *)
Definition evictSession (session : StudySession) (plan : StudyPlan) : StudyPlan :=
  if existsb (sameSessionKey session) (plannedTasks plan) then
    mkPlan (planId plan) (date plan)
           (removeFirstByKey session (plannedTasks plan))
           (totalStudyHours plan - allocatedHours session)
           (availableHours plan) (isLocked plan)
  else plan.

(** [plannedTasks.push(s); totalStudyHours += s.allocatedHours] *)
Definition appendSession (session : StudySession) (plan : StudyPlan) : StudyPlan :=
  mkPlan (planId plan) (date plan) (plannedTasks plan ++ [session])
         (totalStudyHours plan + allocatedHours session)
         (availableHours plan) (isLocked plan).

Definition evictedCopy (session : StudySession) (origin : Date)
  (timeSlot : Time * Time) : StudySession :=
  mkSession (taskId session) (scheduledTime session) (fst timeSlot) (snd timeSlot)
            (allocatedHours session) (sessionNumber session) (isFlexible session)
            rescheduled (done session) (isManualOverride session)
            (Some (startTime session)) (Some origin) (rescheduledAt session).

Record EvictionState := mkEvictionState {
  ev_plans : list StudyPlan;
  ev_moved : list StudySession;
  ev_failed : list (StudySession * string)
}.

Definition evictOne (clock : Clock) (settings : UserSettings)
  (fixedCommitments : list FixedCommitment) (st : EvictionState) (e : MissedEntry)
  : EvictionState :=
  let session := m_session e in
  let origin := m_planDate e in
  match findBestRedistributionSlot clock session (m_task e) (ev_plans st) settings
                                   fixedCommitments origin with
  | Some (targetDate, timeSlot) =>
      let plans := updatePlan origin (evictSession session) (ev_plans st) in
      let plans :=
        match findPlan targetDate plans with
        | Some _ => plans
        | None => plans ++ [newPlan targetDate settings]
        end in
      let redistributedSession := evictedCopy session origin timeSlot in
      mkEvictionState
        (updatePlan targetDate (appendSession redistributedSession) plans)
        (ev_moved st ++ [redistributedSession]) (ev_failed st)
  | None =>
      mkEvictionState (ev_plans st) (ev_moved st)
        (ev_failed st ++ [(session, "No available slots found within deadline"%string)])
  end.

Record EvictionResult := mkEvictionResult {
  ev_success : bool;
  redistributedSessions : list StudySession;
  ev_failedSessions : list (StudySession * string);
  modifiedPlans : list StudyPlan
}.

Definition redistributeFromLockedDays (clock : Clock) (studyPlans : list StudyPlan)
  (tasks : list Task) (settings : UserSettings)
  (fixedCommitments : list FixedCommitment) : EvictionResult :=
  let working := studyPlans in
  let lockedDaysSessions := sortMissed (collectLocked clock working tasks) in
  let st :=
    fold_left (evictOne clock settings fixedCommitments) lockedDaysSessions
              (mkEvictionState working [] []) in
  mkEvictionResult (0 <? List.length (ev_moved st))%nat (ev_moved st)
                   (ev_failed st) (ev_plans st).

(* ------------------------------------------------------------------ *)
(** ** The caller's store

    Plan objects and plan arrays are mutable and may be shared between the
    caller and the engine. The store holds both; an address is an index. *)

Record Heap := mkHeap {
  objects : list StudyPlan;       (* plan objects *)
  arrays : list (list nat)        (* arrays of plan-object addresses *)
}.

Definition readArray (h : Heap) (a : nat) : list nat := nth a (arrays h) [].

(** The plans an array holds, read through the store. *)
Definition snapshot (h : Heap) (a : nat) : list StudyPlan :=
  flat_map (fun o => match nth_error (objects h) o with
                     | Some p => [p]
                     | None => []
                     end) (readArray h a).

Definition writeObject (h : Heap) (o : nat) (f : StudyPlan -> StudyPlan) : Heap :=
  match nth_error (objects h) o with
  | Some p => mkHeap (setNth (objects h) o (f p)) (arrays h)
  | None => h
  end.





(** [const updatedPlans = [...studyPlans]] copies the array, not the plan
    objects; [forEach] then assigns the fields of each object. *)
Definition combineSessionsOnSameDay_store (h : Heap) (studyPlans : nat)
  (settings : UserSettings) : Heap * nat :=
  let addrs := readArray h studyPlans in
  let h1 := mkHeap (objects h) (arrays h ++ [addrs]) in
  (fold_left (fun h o => writeObject h o (combinePlan settings)) addrs h1,
   List.length (arrays h)).





(* ================================================================== *)
(** * Vocabulary of the properties

    Predicates and auxiliary functions in which the properties of the
    engine are stated and proved. *)

(** The evenly distributed hours of one third; an empty third is skipped. *)
Definition thirdOf (hours : Q) (n : nat) : list Q :=
  if (0 <? n)%nat then distributeEvenly hours n else [].

(** The frame of an engine pass: [p'] stands where [p] stood, with the date
    and the lock flag of [p], and is [p] itself when [p] is locked. *)
Definition samePlace (p p' : StudyPlan) : Prop :=
  date p' = date p /\ isLocked p' = isLocked p /\ (isLocked p = true -> p' = p).

(** [W'] is [W] with its plans kept in place, followed by new plans. *)
Definition framed (W W' : list StudyPlan) : Prop :=
  exists W1 N, W' = W1 ++ N /\ Forall2 samePlace W W1.

(** The session [scheduleDay] builds. *)
Definition freshSession (tid : string) (d : Date) (slot : FoundSlot) (hours : Q)
  (n : Z) : StudySession :=
  mkSession tid (d, f_startTime slot) (f_startTime slot) (f_endTime slot) hours
            (Some n) true scheduled false None None None None.

(** The sessions of a collection, plan after plan. *)
Definition allSessions (W : list StudyPlan) : list StudySession :=
  flat_map plannedTasks W.

(** The running maximum of [getNextSessionNumber]. *)
Definition stepMax (tid : string) (m : Z) (session : StudySession) : Z :=
  match numberedFor tid session with
  | Some n => Z.max m n
  | None => m
  end.

(** [totalStudyHours] is the sum of the hours of the sessions not skipped. *)
Definition totalOk (p : StudyPlan) : Prop :=
  totalStudyHours p == recomputeTotal (plannedTasks p).


(** The plan object at an address, if any. *)
Definition deref (objs : list StudyPlan) (o : nat) : list StudyPlan :=
  match nth_error objs o with
  | Some p => [p]
  | None => []
  end.

(** [grownFresh W W']: [W'] holds the sessions of [W] and, besides, sessions
    whose number exceeds every number their task has in [W]; two of the added
    sessions of one task never share a number. *)
Definition exceedsAll (s : StudySession) (W : list StudyPlan) : Prop :=
  exists n, sessionNumber s = Some n
            /\ forall s0 m, In s0 (allSessions W) -> taskId s0 = taskId s ->
                            sessionNumber s0 = Some m -> (m < n)%Z.

Definition grownFresh (W W' : list StudyPlan) : Prop :=
  (forall s, In s (allSessions W) -> In s (allSessions W'))
  /\ (forall s, In s (allSessions W') -> In s (allSessions W) \/ exceedsAll s W)
  /\ (forall s1 s2, In s1 (allSessions W') -> In s2 (allSessions W') ->
        ~ In s1 (allSessions W) -> ~ In s2 (allSessions W) ->
        taskId s1 = taskId s2 -> sessionNumber s1 = sessionNumber s2 -> s1 = s2).

(** A session counts for task [tid] when it is the task's and not skipped. *)
Definition countsFor (tid : string) (s : StudySession) : bool :=
  String.eqb (taskId s) tid && notSkipped s.

(** The sum of [allocatedHours] over the task's sessions not skipped. *)
Definition taskHours (tid : string) (W : list StudyPlan) : Q :=
  hoursOf (filter (countsFor tid) (allSessions W)).
























(* ================================================================== *)
(** * Fixtures

    Concrete tasks, settings, clocks and plan collections on which the
    engine is run. Day 19723 is Monday 2024-01-01. *)

(** A task that is not important and whose deadline was ten days ago. *)
Definition overdueTask : Task :=
  mkTask "essay" "Essay" 2 19713 false pending.

(** Monday 2024-01-01 at noon. *)
Definition noon_2024_01_01 : Clock :=
  mkClock 19723 (dateMs 19723 + 12 * 60 * 60 * 1000).

(** Monday 2024-01-01, a Monday-to-Friday week of eight hours between 08:00
    and 22:00, and a pending five-hour task due Friday. *)
Definition monday : Date := 19723.

Definition weekSettings (mode : PlanMode) : UserSettings :=
  mkSettings [1; 2; 3; 4; 5]%Z 8 0 8 22 15 mode.

Definition reportTask : Task :=
  mkTask "report" "Report" 5 (monday + 4) true pending.

(** A session of [hours] hours from [start] (minutes since midnight). *)
Definition sessionOf (tid : string) (n : option Z) (start hours : Q)
  (st : SessionStatus) : StudySession :=
  mkSession tid (monday, start) start (start + hours * 60) hours n true st false
            None None None None.

(** A locked Monday whose only session, one hour of the report, was skipped;
    its cached total is 0, as the invariant asks. *)
Definition lockedSkippedMonday : list StudyPlan :=
  [mkPlan (planOf monday) monday
          [sessionOf "report" (Some 1%Z) 540 1 skipped] 0 8 true].




(* ================================================================== *)
(** * Properties *)

(* ------------------------------------------------------------------ *)
(** ** Lock governance: [canLockDay] *)

Lemma SessionStatus_eqb_eq (a b : SessionStatus) :
  SessionStatus_eqb a b = true <-> a = b.
Proof. destruct a, b; simpl; split; intro H; congruence. Qed.

Lemma isPendingSession_false (s : StudySession) :
  isPendingSession s = false <->
  done s = true \/ status s = completed \/ status s = skipped \/ status s = missed.
Proof.
  unfold isPendingSession.
  destruct (done s); simpl; [tauto|].
  destruct (status s); simpl; split; intro H; try reflexivity; try discriminate;
    try tauto; decompose [or] H; discriminate.
Qed.

Lemma filter_length_zero {A : Type} (f : A -> bool) (l : list A) :
  List.length (filter f l) = 0%nat <-> (forall x, In x l -> f x = false).
Proof.
  induction l as [|a l IH]; simpl.
  - split; [intros _ x []|reflexivity].
  - destruct (f a) eqn:E; simpl.
    + split; [discriminate|].
      intro H. rewrite (H a (or_introl eq_refl)) in E. discriminate.
    + rewrite IH. split.
      * intros H x [<-|Hx]; auto.
      * intros H x Hx. apply H. now right.
Qed.

(** C9. [canLockDay] answers [canLock = true] exactly when the plan found for
    the date, if there is one, holds no session that is neither done nor of
    status completed, skipped or missed; when it answers [false] it reports
    the number of those pending sessions, which is positive. *)
Theorem canLockDay_iff_no_pending (d : Date) (studyPlans : list StudyPlan) :
  (canLock (canLockDay d studyPlans) = true <->
   forall plan, findPlan d studyPlans = Some plan ->
     forall s, In s (plannedTasks plan) ->
       done s = true \/ status s = completed \/ status s = skipped
       \/ status s = missed)
  /\ (findPlan d studyPlans = None -> canLock (canLockDay d studyPlans) = true)
  /\ (canLock (canLockDay d studyPlans) = false ->
      exists plan,
        findPlan d studyPlans = Some plan
        /\ pendingSessions (canLockDay d studyPlans)
           = Some (List.length (filter isPendingSession (plannedTasks plan)))
        /\ (0 < List.length (filter isPendingSession (plannedTasks plan)))%nat).
Proof.
  unfold canLockDay.
  destruct (findPlan d studyPlans) as [plan|] eqn:Hfind.
  - destruct (0 <? List.length (filter isPendingSession (plannedTasks plan)))%nat
      eqn:Hlen; simpl.
    + apply Nat.ltb_lt in Hlen. split; [split|split].
      * discriminate.
      * intro H. exfalso.
        assert (Hz : List.length (filter isPendingSession (plannedTasks plan)) = 0%nat).
        { apply filter_length_zero. intros s Hs.
          apply isPendingSession_false. exact (H plan eq_refl s Hs). }
        lia.
      * discriminate.
      * intros _. exists plan. auto.
    + apply Nat.ltb_ge in Hlen. split; [split|split].
      * intros _ plan' Heq s Hs. injection Heq as <-.
        apply isPendingSession_false.
        assert (Hz : List.length (filter isPendingSession (plannedTasks plan)) = 0%nat)
          by lia.
        exact (proj1 (filter_length_zero _ _) Hz s Hs).
      * reflexivity.
      * discriminate.
      * discriminate.
  - simpl. split; [split|split]; try discriminate; reflexivity.
Qed.

(* ------------------------------------------------------------------ *)
(** ** Missed-session redistribution: the outcome summary *)

Lemma ltb_length_nonempty {A : Type} (l : list A) :
  (0 <? List.length l)%nat = true <-> l <> [].
Proof.
  destruct l; simpl; split; intro H; try reflexivity; try discriminate.
  contradiction.
Qed.

(** C10. The success flag of missed-session redistribution is [true] exactly
    when at least one session was moved or no missed session was collected;
    so a partial failure still reports success, and a run in which every
    collected session fails reports [false]. *)
Theorem redistributeMissed_success_flag (clock : Clock)
  (studyPlans : list StudyPlan) (settings : UserSettings)
  (fixedCommitments : list FixedCommitment) (tasks : list Task) :
  let r := redistributeMissedSessionsWithFeedback clock studyPlans settings
             fixedCommitments tasks in
  (success (feedback r) = true <->
   movedSessions r <> [] \/ collectMissed clock studyPlans tasks = [])
  /\ totalMissed (details (feedback r))
     = List.length (collectMissed clock studyPlans tasks)
  /\ (movedSessions r <> [] /\ failedSessions r <> [] ->
      success (feedback r) = true)
  /\ (collectMissed clock studyPlans tasks <> [] /\ movedSessions r = [] ->
      success (feedback r) = false).
Proof.
  unfold redistributeMissedSessionsWithFeedback.
  destruct (collectMissed clock studyPlans tasks) as [|e l] eqn:Hc; simpl.
  - split; [split|split; [|split]]; auto.
    intros [H _]. contradiction.
  - set (st := fold_left _ _ _).
    split; [split|split; [|split]].
    + intro H. left. now apply ltb_length_nonempty.
    + intros [H|H]; [now apply ltb_length_nonempty|discriminate].
    + reflexivity.
    + intros [H _]. now apply ltb_length_nonempty.
    + intros [_ H]. rewrite H. reflexivity.
Qed.

(* ------------------------------------------------------------------ *)
(** ** Missed-session redistribution: the priority score *)

Lemma Qltb_true (a b : Q) : Qltb a b = true <-> a < b.
Proof.
  unfold Qltb. rewrite negb_true_iff.
  split; intro H.
  - apply Qnot_le_lt. intro Hle. apply Qle_bool_iff in Hle. congruence.
  - destruct (Qle_bool b a) eqn:E; [|reflexivity].
    apply Qle_bool_iff in E. exfalso. exact (Qlt_not_le _ _ H E).
Qed.

Lemma Qltb_false (a b : Q) : Qltb a b = false <-> b <= a.
Proof.
  unfold Qltb. rewrite negb_false_iff. apply Qle_bool_iff.
Qed.

Lemma jsMax_ge_l (a b : Q) : a <= jsMax a b.
Proof.
  unfold jsMax. destruct (Qle_bool a b) eqn:E.
  - now apply Qle_bool_iff.
  - apply Qle_refl.
Qed.

Lemma jsMax_ge_r (a b : Q) : b <= jsMax a b.
Proof.
  unfold jsMax. destruct (Qle_bool a b) eqn:E.
  - apply Qle_refl.
  - apply Qlt_le_weak. apply Qltb_true. unfold Qltb. now rewrite E.
Qed.

Lemma jsMax_cases (a b : Q) :
  (a <= b /\ jsMax a b = b) \/ (b < a /\ jsMax a b = a).
Proof.
  unfold jsMax. destruct (Qle_bool a b) eqn:E.
  - left. split; [now apply Qle_bool_iff|reflexivity].
  - right. split; [|reflexivity]. apply Qltb_true. unfold Qltb. now rewrite E.
Qed.

(** The branch adding 2000 is unreachable: the clamped [daysUntilDeadline]
    is never negative, so no score exceeds 1100. *)
Lemma missedPriority_le_1100 (clock : Clock) (t : Task) :
  missedPriority clock t <= 1100.
Proof.
  unfold missedPriority.
  set (days := jsMax 0 _).
  assert (Hd : 0 <= days) by apply jsMax_ge_l.
  destruct (Qltb days 0) eqn:E.
  - apply Qltb_true in E. exfalso. exact (Qlt_not_le _ _ E Hd).
  - destruct (jsMax_cases 0 (100 - days)) as [[_ ->]|[_ ->]];
      destruct (importance t); lra.
Qed.

(** C5. For a task whose deadline has passed, the score the code assigns is
    100 (plus 1000 if important), not the 2000 the comment in the code and
    the specification announce. *)
Theorem missedPriority_past_deadline_is_100 :
  (dateMs (deadline overdueTask) < nowMs noon_2024_01_01)%Z
  /\ missedPriority noon_2024_01_01 overdueTask == 100
  /\ ~ missedPriority noon_2024_01_01 overdueTask == 2000.
Proof.
  split; [reflexivity|]. split; [reflexivity|]. intro H. discriminate H.
Qed.

(* ------------------------------------------------------------------ *)
(** ** Sums and rounding *)

(** [lra] does not read divisions; those by the constants of the source are
    multiplications by a numeral. *)
Ltac qlra :=
  unfold Qdiv in *;
  change (/ 100) with (1 # 100) in *;
  change (/ 60) with (1 # 60) in *;
  lra.

Lemma fold_left_Qplus_acc (l : list Q) (a : Q) :
  fold_left Qplus l a == a + sumQ l.
Proof.
  unfold sumQ. revert a.
  induction l as [|x l IH]; intro a; simpl.
  - ring.
  - rewrite (IH (a + x)), (IH (0 + x)). ring.
Qed.

Lemma sumQ_nil : sumQ [] = 0.
Proof. reflexivity. Qed.

Lemma sumQ_cons (x : Q) (l : list Q) : sumQ (x :: l) == x + sumQ l.
Proof.
  unfold sumQ at 1. simpl. rewrite fold_left_Qplus_acc. ring.
Qed.

Lemma sumQ_app (l1 l2 : list Q) : sumQ (l1 ++ l2) == sumQ l1 + sumQ l2.
Proof.
  induction l1 as [|x l1 IH]; simpl.
  - rewrite sumQ_nil. ring.
  - rewrite !sumQ_cons, IH. ring.
Qed.

Lemma sumQ_repeat (x : Q) (n : nat) : sumQ (repeat x n) == ofNat n * x.
Proof.
  induction n as [|n IH].
  - simpl. rewrite sumQ_nil. unfold ofNat. simpl. ring.
  - cbn [repeat]. rewrite sumQ_cons, IH. unfold ofNat.
    rewrite Nat2Z.inj_succ. unfold Z.succ. rewrite inject_Z_plus. ring.
Qed.

Lemma sumQ_nonneg (l : list Q) : Forall (fun v => 0 <= v) l -> 0 <= sumQ l.
Proof.
  induction 1 as [|x l Hx _ IH].
  - rewrite sumQ_nil. apply Qle_refl.
  - rewrite sumQ_cons. lra.
Qed.

Lemma Qfloor_unique (x : Q) (n : Z) :
  inject_Z n <= x -> x < inject_Z (n + 1) -> Qfloor x = n.
Proof.
  intros Hlo Hhi.
  pose proof (Qfloor_le x) as H1.
  pose proof (Qlt_floor x) as H2.
  assert (Ha : (Qfloor x < n + 1)%Z).
  { rewrite Zlt_Qlt. eapply Qle_lt_trans; eassumption. }
  assert (Hb : (n < Qfloor x + 1)%Z).
  { rewrite Zlt_Qlt. eapply Qle_lt_trans; eassumption. }
  lia.
Qed.

Lemma jsRound_int (z : Z) : Qfloor (inject_Z z + (1 # 2)) = z.
Proof.
  apply Qfloor_unique.
  - lra.
  - rewrite inject_Z_plus. change (inject_Z 1) with 1. lra.
Qed.

Lemma jsRound_bounds (x : Q) :
  x - (1 # 2) < jsRound x /\ jsRound x <= x + (1 # 2).
Proof.
  unfold jsRound.
  pose proof (Qfloor_le (x + (1 # 2))) as H1.
  pose proof (Qlt_floor (x + (1 # 2))) as H2.
  rewrite inject_Z_plus in H2. change (inject_Z 1) with 1 in H2.
  split; lra.
Qed.

Lemma jsMin_Z (k : Z) :
  jsMin (1 # 4) (inject_Z k / 100) == inject_Z (Z.min 25 k) / 100.
Proof.
  unfold jsMin.
  destruct (Qle_bool (1 # 4) (inject_Z k / 100)) eqn:E.
  - apply Qle_bool_iff in E.
    assert (H : (25 <= k)%Z).
    { rewrite Zle_Qle. change (inject_Z 25) with 25. qlra. }
    rewrite Z.min_l by exact H. reflexivity.
  - assert (H : inject_Z k / 100 < 1 # 4).
    { apply Qltb_true. unfold Qltb. now rewrite E. }
    assert (H' : (k < 25)%Z).
    { rewrite Zlt_Qlt. change (inject_Z 25) with 25. qlra. }
    rewrite Z.min_r by lia. reflexivity.
Qed.

(* ------------------------------------------------------------------ *)
(** ** The even distribution *)

Lemma distributeRemainder_length (l : list Q) (r : Q) :
  List.length (distributeRemainder l r) = List.length l.
Proof.
  revert r. induction l as [|x l IH]; intro r; simpl; [reflexivity|].
  destruct (Qltb 0 r); simpl; [now rewrite IH|reflexivity].
Qed.

Lemma distributeRemainder_step (k : Z) :
  Qfloor ((inject_Z k / 100 - jsMin (1 # 4) (inject_Z k / 100)) * 100 + (1 # 2))
  = (k - Z.min 25 k)%Z.
Proof.
  rewrite <- (jsRound_int (k - Z.min 25 k)).
  apply Qfloor_comp.
  rewrite jsMin_Z. unfold Zminus. rewrite inject_Z_plus, inject_Z_opp.
  field.
Qed.

Lemma distributeRemainder_sum (l : list Q) (k : Z) :
  (0 <= k <= 25 * Z.of_nat (List.length l))%Z ->
  sumQ (distributeRemainder l (inject_Z k / 100)) == sumQ l + inject_Z k / 100.
Proof.
  revert k. induction l as [|x l IH]; intros k Hk.
  - simpl in Hk. assert (k = 0%Z) by lia. subst k. simpl.
    rewrite sumQ_nil. reflexivity.
  - cbn [distributeRemainder].
    destruct (Qltb 0 (inject_Z k / 100)) eqn:E.
    + unfold jsRound. rewrite distributeRemainder_step.
      rewrite sumQ_cons, IH.
      * rewrite sumQ_cons, jsMin_Z.
        unfold Zminus. rewrite inject_Z_plus, inject_Z_opp. field.
      * cbn [List.length] in Hk. lia.
    + apply Qltb_false in E.
      assert (Hk0 : (k <= 0)%Z).
      { rewrite Zle_Qle. change (inject_Z 0) with 0. qlra. }
      assert (k = 0%Z) by lia. subst k. rewrite sumQ_cons. field.
Qed.

Lemma distributeRemainder_ge (b : Q) (l : list Q) (r : Q) :
  Forall (fun v => b <= v) l ->
  Forall (fun v => b <= v) (distributeRemainder l r).
Proof.
  intro H. revert r. induction H as [|x l Hx Hl IH]; intro r; simpl.
  - constructor.
  - destruct (Qltb 0 r) eqn:E.
    + apply Qltb_true in E. constructor; [|apply IH].
      unfold jsMin. destruct (Qle_bool (1 # 4) r); lra.
    + constructor; assumption.
Qed.

Lemma distributeEvenly_length (totalHours : Q) (days : nat) :
  List.length (distributeEvenly totalHours days) = days.
Proof.
  unfold distributeEvenly.
  now rewrite distributeRemainder_length, repeat_length.
Qed.

Lemma ofNat_pos (n : nat) : (1 <= n)%nat -> 0 < ofNat n.
Proof.
  intro H. unfold ofNat. change 0 with (inject_Z 0). rewrite <- Zlt_Qlt. lia.
Qed.

(** The part of [totalHours] the base amounts leave over, in hundredths:
    it lies in [0, days). *)
Lemma distributeEvenly_leftover (totalHours : Q) (days : nat) :
  (1 <= days)%nat ->
  let baseHours := jsFloor ((totalHours * 100) / ofNat days) / 100 in
  0 <= (totalHours - baseHours * ofNat days) * 100
  /\ (totalHours - baseHours * ofNat days) * 100 < ofNat days.
Proof.
  intros Hd baseHours. subst baseHours. unfold jsFloor.
  pose proof (ofNat_pos days Hd) as Hpos.
  set (x := totalHours * 100 / ofNat days).
  pose proof (Qfloor_le x) as H1.
  pose proof (Qlt_floor x) as H2.
  rewrite inject_Z_plus in H2. change (inject_Z 1) with 1 in H2.
  assert (Hx : x * ofNat days == totalHours * 100).
  { unfold x. field. lra. }
  set (m := inject_Z (Qfloor x)) in *.
  assert (Ha : m * ofNat days <= x * ofNat days)
    by (apply Qmult_le_compat_r; lra).
  assert (Hb : x * ofNat days < (m + 1) * ofNat days)
    by (apply Qmult_lt_compat_r; lra).
  split.
  - setoid_replace ((totalHours - m / 100 * ofNat days) * 100)
      with (totalHours * 100 - m * ofNat days) by field.
    lra.
  - setoid_replace ((totalHours - m / 100 * ofNat days) * 100)
      with (totalHours * 100 - m * ofNat days) by field.
    lra.
Qed.

Lemma distributeEvenly_sum (totalHours : Q) (days : nat) :
  (1 <= days)%nat ->
  totalHours - (1 # 200) < sumQ (distributeEvenly totalHours days)
  /\ sumQ (distributeEvenly totalHours days) <= totalHours + (1 # 200).
Proof.
  intro Hd.
  destruct (distributeEvenly_leftover totalHours days Hd) as [Hlo Hhi].
  unfold distributeEvenly.
  set (baseHours := jsFloor ((totalHours * 100) / ofNat days) / 100) in *.
  set (y := (totalHours - baseHours * ofNat days) * 100) in *.
  destruct (jsRound_bounds y) as [Hr1 Hr2]. unfold jsRound in *.
  set (k := Qfloor (y + (1 # 2))) in *.
  assert (Hk0 : (0 <= k)%Z).
  { change 0%Z with (Qfloor (0 + (1 # 2))). apply Qfloor_resp_le. lra. }
  assert (Hk1 : (k <= Z.of_nat days)%Z).
  { rewrite <- (jsRound_int (Z.of_nat days)). apply Qfloor_resp_le.
    unfold ofNat in Hhi. lra. }
  rewrite distributeRemainder_sum
    by (rewrite repeat_length; lia).
  rewrite sumQ_repeat.
  assert (Hy : totalHours == ofNat days * baseHours + y / 100)
    by (unfold y; field).
  clearbody k y baseHours.
  split; qlra.
Qed.

Lemma jsFloor_nonneg (x : Q) : 0 <= x -> 0 <= jsFloor x.
Proof.
  intro H. unfold jsFloor. change 0 with (inject_Z 0) at 1.
  rewrite <- Zle_Qle. change 0%Z with (Qfloor 0). now apply Qfloor_resp_le.
Qed.

Lemma distributeEvenly_nonneg (totalHours : Q) (days : nat) :
  0 <= totalHours ->
  Forall (fun v => 0 <= v) (distributeEvenly totalHours days).
Proof.
  intro HT. unfold distributeEvenly.
  apply distributeRemainder_ge.
  apply Forall_forall. intros v Hv. apply repeat_spec in Hv. subst v.
  assert (H : 0 <= jsFloor (totalHours * 100 / ofNat days)).
  { apply jsFloor_nonneg.
    destruct days as [|n].
    - unfold ofNat. simpl. unfold Qdiv, Qinv. simpl. lra.
    - pose proof (ofNat_pos (S n) ltac:(lia)) as Hp.
      apply Qle_shift_div_l; lra. }
  revert H. generalize (jsFloor (totalHours * 100 / ofNat days)).
  intros q H. qlra.
Qed.

(* ------------------------------------------------------------------ *)
(** ** The front-loaded and back-loaded distributions *)

Lemma ceilDiv3_eq (n : nat) : ceilDiv3 n = ((n + 2) / 3)%nat.
Proof.
  unfold ceilDiv3.
  assert (H : Qceiling (ofNat n / 3) = ((Z.of_nat n + 2) / 3)%Z).
  { unfold Qceiling, Qfloor, ofNat, Qdiv, Qmult, Qinv, Qopp, inject_Z. simpl.
    rewrite Z.mul_1_r. Z.to_euclidean_division_equations. lia. }
  rewrite H. rewrite <- (Nat2Z.id ((n + 2) / 3)).
  f_equal. rewrite Nat2Z.inj_div, Nat2Z.inj_add. reflexivity.
Qed.

(** The boundaries of the thirds lie inside the array. *)
Lemma thirds_in_range (days : nat) :
  (ceilDiv3 days <= ceilDiv3 (days * 2) /\ ceilDiv3 (days * 2) <= days)%nat.
Proof.
  rewrite !ceilDiv3_eq.
  split.
  - apply Nat.Div0.div_le_mono. lia.
  - destruct days as [|[|n]]; [reflexivity|reflexivity|].
    apply Nat.Div0.div_le_upper_bound. lia.
Qed.

Lemma thirds_nonempty (days : nat) :
  (3 <= days)%nat ->
  (1 <= ceilDiv3 days /\ 1 <= ceilDiv3 (days * 2) - ceilDiv3 days
   /\ 1 <= days - ceilDiv3 (days * 2))%nat.
Proof.
  intro H. rewrite !ceilDiv3_eq.
  pose proof (Nat.div_mod_eq (days + 2) 3) as H1.
  pose proof (Nat.mod_upper_bound (days + 2) 3 ltac:(lia)) as H2.
  pose proof (Nat.div_mod_eq (days * 2 + 2) 3) as H3.
  pose proof (Nat.mod_upper_bound (days * 2 + 2) 3 ltac:(lia)) as H4.
  lia.
Qed.

Lemma setNth_app_at {A : Type} (l1 : list A) (x v : A) (l2 : list A) :
  setNth (l1 ++ x :: l2) (List.length l1) v = l1 ++ v :: l2.
Proof.
  induction l1 as [|a l1 IH]; simpl; [reflexivity|now rewrite IH].
Qed.

Lemma fillRange_spec (n : nat) :
  forall (pre mid post daily : list Q),
    List.length mid = n ->
    fillRange (pre ++ mid ++ post) (List.length pre) daily n
    = pre ++ map (fun i => nth i daily 0) (seq 0 n) ++ post.
Proof.
  unfold fillRange.
  induction n as [|n IH]; intros pre mid post daily Hlen.
  - destruct mid; [reflexivity|discriminate].
  - destruct (exists_last (l := mid)) as [mid' [m Hm]].
    { intro E. subst mid. discriminate. }
    subst mid. rewrite length_app in Hlen. simpl in Hlen.
    rewrite seq_S, fold_left_app, <- app_assoc. simpl.
    rewrite (IH pre mid' (m :: post) daily) by lia.
    rewrite map_app. simpl.
    unfold arraySet.
    replace (List.length pre + n)%nat
      with (List.length (pre ++ map (fun i => nth i daily 0) (seq 0 n))).
    + rewrite app_assoc, setNth_app_at, <- !app_assoc. reflexivity.
    + rewrite length_app, length_map, length_seq. reflexivity.
Qed.

Lemma map_nth_seq (l : list Q) :
  map (fun i => nth i l 0) (seq 0 (List.length l)) = l.
Proof.
  induction l as [|x l IH]; [reflexivity|].
  cbn [List.length seq map nth]. f_equal.
  rewrite <- seq_shift, map_map. exact IH.
Qed.

Lemma fillRange_exact (pre mid post daily : list Q) :
  List.length mid = List.length daily ->
  fillRange (pre ++ mid ++ post) (List.length pre) daily (List.length daily)
  = pre ++ daily ++ post.
Proof.
  intro H. rewrite fillRange_spec by exact H. now rewrite map_nth_seq.
Qed.

Lemma thirdOf_length (hours : Q) (n : nat) : List.length (thirdOf hours n) = n.
Proof.
  unfold thirdOf. destruct n; simpl; [reflexivity|].
  apply distributeEvenly_length.
Qed.

(** The three fill loops write three adjacent blocks. *)
Lemma distributeThirds_blocks (w1 w2 w3 totalHours : Q) (days : nat) :
  distributeThirds w1 w2 w3 totalHours days
  = distributeEvenly (totalHours * w1) (ceilDiv3 days)
    ++ thirdOf (totalHours * w2) (ceilDiv3 (days * 2) - ceilDiv3 days)
    ++ thirdOf (totalHours * w3) (days - ceilDiv3 (days * 2)).
Proof.
  unfold distributeThirds.
  destruct (thirds_in_range days) as [H1 H2].
  set (f := ceilDiv3 days) in *. set (s := ceilDiv3 (days * 2)) in *.
  set (A := distributeEvenly (totalHours * w1) f).
  assert (HA : List.length A = f) by apply distributeEvenly_length.
  assert (Hsplit : repeat 0 days
                   = repeat 0 f ++ repeat 0 (s - f) ++ repeat 0 (days - s)).
  { rewrite <- !repeat_app. f_equal. lia. }
  rewrite Hsplit.
  assert (Hfirst :
            fillRange (repeat 0 f ++ repeat 0 (s - f) ++ repeat 0 (days - s))
                      0 A f
            = A ++ repeat 0 (s - f) ++ repeat 0 (days - s)).
  { pose proof (fillRange_exact [] (repeat 0 f)
                  (repeat 0 (s - f) ++ repeat 0 (days - s)) A) as H.
    simpl in H. rewrite HA in H. apply H. now rewrite repeat_length. }
  rewrite Hfirst. clear Hfirst Hsplit.
  set (B := thirdOf (totalHours * w2) (s - f)).
  assert (HB : List.length B = (s - f)%nat) by apply thirdOf_length.
  assert (Hsecond :
            (if (0 <? s - f)%nat
             then fillRange (A ++ repeat 0 (s - f) ++ repeat 0 (days - s)) f
                            (distributeEvenly (totalHours * w2) (s - f)) (s - f)
             else A ++ repeat 0 (s - f) ++ repeat 0 (days - s))
            = A ++ B ++ repeat 0 (days - s)).
  { unfold B, thirdOf in *. destruct (0 <? s - f)%nat eqn:E.
    - pose proof (fillRange_exact A (repeat 0 (s - f)) (repeat 0 (days - s))
                    (distributeEvenly (totalHours * w2) (s - f))) as H.
      rewrite HA, HB in H. apply H. now rewrite repeat_length.
    - apply Nat.ltb_ge in E. assert (E0 : (s - f = 0)%nat) by lia.
      rewrite E0. reflexivity. }
  rewrite Hsecond. clear Hsecond.
  set (C := thirdOf (totalHours * w3) (days - s)).
  assert (HC : List.length C = (days - s)%nat) by apply thirdOf_length.
  unfold C, thirdOf in *. destruct (0 <? days - s)%nat eqn:E.
  - pose proof (fillRange_exact (A ++ B) (repeat 0 (days - s)) []
                  (distributeEvenly (totalHours * w3) (days - s))) as H.
    rewrite HC in H. rewrite !app_nil_r, <- !app_assoc in H.
    rewrite length_app, HA, HB in H.
    replace (f + (s - f))%nat with s in H by lia.
    apply H. now rewrite repeat_length.
  - apply Nat.ltb_ge in E. assert (E0 : (days - s = 0)%nat) by lia.
    rewrite E0. reflexivity.
Qed.

Lemma distributeThirds_length (w1 w2 w3 totalHours : Q) (days : nat) :
  List.length (distributeThirds w1 w2 w3 totalHours days) = days.
Proof.
  rewrite distributeThirds_blocks, !length_app, !thirdOf_length,
    distributeEvenly_length.
  pose proof (thirds_in_range days). lia.
Qed.

Lemma thirdOf_nonneg (hours : Q) (n : nat) :
  0 <= hours -> Forall (fun v => 0 <= v) (thirdOf hours n).
Proof.
  intro H. unfold thirdOf. destruct (0 <? n)%nat; [|constructor].
  now apply distributeEvenly_nonneg.
Qed.

Lemma thirdOf_sum_upper (hours : Q) (n : nat) :
  0 <= hours -> sumQ (thirdOf hours n) <= hours + (1 # 200).
Proof.
  intro H. unfold thirdOf. destruct (0 <? n)%nat eqn:E.
  - apply Nat.ltb_lt in E. apply distributeEvenly_sum. lia.
  - rewrite sumQ_nil. lra.
Qed.

Lemma thirdOf_sum_lower (hours : Q) (n : nat) :
  (1 <= n)%nat -> hours - (1 # 200) < sumQ (thirdOf hours n).
Proof.
  intro H. unfold thirdOf.
  destruct (0 <? n)%nat eqn:E.
  - now apply distributeEvenly_sum.
  - apply Nat.ltb_ge in E. lia.
Qed.

Section Thirds.
Variables w1 w2 w3 : Q.
Hypothesis w1_nonneg : 0 <= w1.
Hypothesis w2_nonneg : 0 <= w2.
Hypothesis w3_nonneg : 0 <= w3.
Hypothesis weights : w1 + w2 + w3 == 1.

Lemma distributeThirds_nonneg (totalHours : Q) (days : nat) :
  0 <= totalHours ->
  Forall (fun v => 0 <= v) (distributeThirds w1 w2 w3 totalHours days).
Proof.
  intro H. rewrite distributeThirds_blocks.
  apply Forall_app; split; [|apply Forall_app; split].
  - apply distributeEvenly_nonneg. now apply Qmult_le_0_compat.
  - apply thirdOf_nonneg. now apply Qmult_le_0_compat.
  - apply thirdOf_nonneg. now apply Qmult_le_0_compat.
Qed.

Lemma distributeThirds_sum_upper (totalHours : Q) (days : nat) :
  0 <= totalHours -> (1 <= days)%nat ->
  sumQ (distributeThirds w1 w2 w3 totalHours days) <= totalHours + (3 # 200).
Proof.
  intros H Hd. rewrite distributeThirds_blocks, !sumQ_app.
  assert (Hf : (1 <= ceilDiv3 days)%nat).
  { rewrite ceilDiv3_eq.
    pose proof (Nat.div_mod_eq (days + 2) 3).
    pose proof (Nat.mod_upper_bound (days + 2) 3 ltac:(lia)). lia. }
  pose proof (proj2 (distributeEvenly_sum (totalHours * w1) _ Hf)) as Ha.
  pose proof (thirdOf_sum_upper (totalHours * w2)
                (ceilDiv3 (days * 2) - ceilDiv3 days)
                (Qmult_le_0_compat _ _ H w2_nonneg)) as Hb.
  pose proof (thirdOf_sum_upper (totalHours * w3)
                (days - ceilDiv3 (days * 2))
                (Qmult_le_0_compat _ _ H w3_nonneg)) as Hc.
  assert (Hw : totalHours * w1 + totalHours * w2 + totalHours * w3
               == totalHours).
  { setoid_replace (totalHours * w1 + totalHours * w2 + totalHours * w3)
      with (totalHours * (w1 + w2 + w3)) by ring.
    rewrite weights. ring. }
  lra.
Qed.

Lemma distributeThirds_sum_lower (totalHours : Q) (days : nat) :
  (3 <= days)%nat ->
  totalHours - (3 # 200) < sumQ (distributeThirds w1 w2 w3 totalHours days).
Proof.
  intro Hd. rewrite distributeThirds_blocks, !sumQ_app.
  destruct (thirds_nonempty days Hd) as [Hf [Hs Ht]].
  pose proof (proj1 (distributeEvenly_sum (totalHours * w1) _ Hf)) as Ha.
  pose proof (thirdOf_sum_lower (totalHours * w2) _ Hs) as Hb.
  pose proof (thirdOf_sum_lower (totalHours * w3) _ Ht) as Hc.
  assert (Hw : totalHours * w1 + totalHours * w2 + totalHours * w3
               == totalHours).
  { setoid_replace (totalHours * w1 + totalHours * w2 + totalHours * w3)
      with (totalHours * (w1 + w2 + w3)) by ring.
    rewrite weights. ring. }
  lra.
Qed.
End Thirds.

(** C3 (as stated, refuted). Front-loading 1.079 hours over three days
    rounds each third up: the entries sum to 1.09, more than 0.01 away. *)
Lemma distribution_tolerance_counterexample :
  sumQ (calculateDailyHoursDistribution (1079 # 1000) 3 frontLoad) == 109 # 100
  /\ ~ (sumQ (calculateDailyHoursDistribution (1079 # 1000) 3 frontLoad)
        - (1079 # 1000) <= 1 # 100).
Proof.
  split; [reflexivity|]. intro H. vm_compute in H. apply H. reflexivity.
Qed.

(** With fewer than three days a third is empty and its share is dropped:
    front-loading 10 hours onto a single day allocates 7. *)
Lemma frontLoad_single_day_drops_hours :
  map Qred (calculateDailyHoursDistribution 10 1 frontLoad) = [7]
  /\ map Qred (calculateDailyHoursDistribution 10 2 frontLoad) = [7; 2]
  /\ map Qred (calculateDailyHoursDistribution 10 1 backLoad) = [1].
Proof. repeat split; reflexivity. Qed.

(** C3 (amended). For [totalHours >= 0] and [dayCount >= 1] every strategy
    returns [dayCount] entries, none negative; the even strategy sums to
    [totalHours] within 0.005, and the front- and back-loaded strategies sum
    to at most [totalHours + 0.015], and to [totalHours] within 0.015 when
    [dayCount >= 3] (no third is empty). *)
Theorem calculateDailyHoursDistribution_spec
  (totalHours : Q) (dayCount : nat) (strategy : Strategy) :
  0 <= totalHours -> (1 <= dayCount)%nat ->
  let v := calculateDailyHoursDistribution totalHours dayCount strategy in
  List.length v = dayCount
  /\ Forall (fun h => 0 <= h) v
  /\ (strategy = even ->
      totalHours - (1 # 200) < sumQ v /\ sumQ v <= totalHours + (1 # 200))
  /\ sumQ v <= totalHours + (3 # 200)
  /\ ((3 <= dayCount)%nat -> totalHours - (3 # 200) < sumQ v).
Proof.
  intros HT Hd v. subst v. unfold calculateDailyHoursDistribution.
  destruct dayCount as [|n]; [lia|]. set (d := S n) in *.
  destruct strategy.
  - unfold distributeFrontLoad.
    split; [apply distributeThirds_length|].
    split; [apply distributeThirds_nonneg; lra|].
    split; [discriminate|].
    split; [apply distributeThirds_sum_upper; try lra; try reflexivity; exact Hd|].
    intro H3. apply distributeThirds_sum_lower; [reflexivity|exact H3].
  - pose proof (distributeEvenly_sum totalHours d Hd) as [H1 H2].
    split; [apply distributeEvenly_length|].
    split; [now apply distributeEvenly_nonneg|].
    split; [intros _; split; assumption|].
    split; [lra|]. intros _. lra.
  - unfold distributeBackLoad.
    split; [apply distributeThirds_length|].
    split; [apply distributeThirds_nonneg; lra|].
    split; [discriminate|].
    split; [apply distributeThirds_sum_upper; try lra; try reflexivity; exact Hd|].
    intro H3. apply distributeThirds_sum_lower; [reflexivity|exact H3].
Qed.

Lemma calculateDailyHoursDistribution_spec_witness :
  0 <= 5 /\ (1 <= 4)%nat
  /\ List.length (calculateDailyHoursDistribution 5 4 frontLoad) = 4%nat
  /\ sumQ (calculateDailyHoursDistribution 5 4 frontLoad) <= 5 + (3 # 200).
Proof.
  split; [discriminate|]. split; [repeat constructor|].
  pose proof (calculateDailyHoursDistribution_spec 5 4 frontLoad
                ltac:(discriminate) ltac:(repeat constructor)) as H.
  cbv zeta in H. destruct H as [H1 [_ [_ [H2 _]]]].
  split; assumption.
Defined.

(* ------------------------------------------------------------------ *)
(** ** The frame of an engine pass

    [framed W W'] says that [W'] is [W] position by position, followed by new
    plans: dates and lock flags are kept, and a locked plan is kept whole. *)

Lemma samePlace_refl (p : StudyPlan) : samePlace p p.
Proof. repeat split. Qed.

Lemma samePlace_trans (p q r : StudyPlan) :
  samePlace p q -> samePlace q r -> samePlace p r.
Proof.
  intros [H1 [H2 H3]] [H4 [H5 H6]]. repeat split; try congruence.
  intro H. rewrite (H3 H) in *. auto.
Qed.

Lemma Forall2_samePlace_refl (W : list StudyPlan) : Forall2 samePlace W W.
Proof. induction W; constructor; auto using samePlace_refl. Qed.

Lemma Forall2_samePlace_trans (W1 W2 W3 : list StudyPlan) :
  Forall2 samePlace W1 W2 -> Forall2 samePlace W2 W3 -> Forall2 samePlace W1 W3.
Proof.
  intro H. revert W3. induction H; intros W3 H'; inversion H'; subst;
    constructor; eauto using samePlace_trans.
Qed.

Lemma framed_refl (W : list StudyPlan) : framed W W.
Proof.
  exists W, []. split; [now rewrite app_nil_r|apply Forall2_samePlace_refl].
Qed.

Lemma framed_trans (W1 W2 W3 : list StudyPlan) :
  framed W1 W2 -> framed W2 W3 -> framed W1 W3.
Proof.
  intros [A [N [-> HA]]] [B [M [-> HB]]].
  apply Forall2_app_inv_l in HB. destruct HB as [B1 [B2 [HB1 [HB2 ->]]]].
  exists B1, (B2 ++ M). split; [now rewrite app_assoc|].
  eapply Forall2_samePlace_trans; eassumption.
Qed.

Lemma framed_app (W N : list StudyPlan) : framed W (W ++ N).
Proof. exists W, N. split; [reflexivity|apply Forall2_samePlace_refl]. Qed.

Lemma framed_map (f : StudyPlan -> StudyPlan) (W : list StudyPlan) :
  (forall p, samePlace p (f p)) -> framed W (map f W).
Proof.
  intro H. exists (map f W), []. split; [now rewrite app_nil_r|].
  induction W; simpl; constructor; auto.
Qed.

Lemma findPlan_cons (d : Date) (p : StudyPlan) (W : list StudyPlan) :
  findPlan d (p :: W) = if (date p =? d)%Z then Some p else findPlan d W.
Proof. reflexivity. Qed.

Lemma framed_updatePlan (d : Date) (f : StudyPlan -> StudyPlan)
  (W : list StudyPlan) :
  (forall q, findPlan d W = Some q -> samePlace q (f q)) ->
  framed W (updatePlan d f W).
Proof.
  intro H. exists (updatePlan d f W), []. split; [now rewrite app_nil_r|].
  induction W as [|p W IH]; simpl; [constructor|].
  rewrite findPlan_cons in H.
  destruct (date p =? d)%Z.
  - constructor; [now apply H|apply Forall2_samePlace_refl].
  - constructor; [apply samePlace_refl|now apply IH].
Qed.

Lemma samePlace_unlocked (p p' : StudyPlan) :
  date p' = date p -> isLocked p' = isLocked p -> isLocked p = false ->
  samePlace p p'.
Proof. intros H1 H2 H3. repeat split; auto. congruence. Qed.

Lemma framed_addSessionToPlan (session : StudySession) (d : Date)
  (W : list StudyPlan) (settings : UserSettings) :
  framed W (addSessionToPlan session d W settings).
Proof.
  unfold addSessionToPlan.
  destruct (findPlan d W) as [plan|] eqn:Hf.
  - destruct (isLocked plan) eqn:Hl; [apply framed_refl|].
    apply framed_updatePlan. intros q Hq. rewrite Hf in Hq. injection Hq as <-.
    now apply samePlace_unlocked.
  - apply framed_app.
Qed.

Lemma samePlace_purgePlan (tid : string) (p : StudyPlan) :
  samePlace p (purgePlan tid p).
Proof.
  unfold purgePlan. destruct (isLocked p) eqn:E; [apply samePlace_refl|].
  now apply samePlace_unlocked.
Qed.

Lemma framed_removeUnlockedTaskSessions (tid : string) (W : list StudyPlan) :
  framed W (removeUnlockedTaskSessions tid W).
Proof. apply framed_map. apply samePlace_purgePlan. Qed.

(* ------------------------------------------------------------------ *)
(** ** Induction over a generation pass

    Every update a generation pass makes is a purge of one task's unlocked
    sessions or the insertion of a freshly built session. A relation between
    states that these two steps respect, and that is reflexive and
    transitive, relates the input of the pass to its output. *)

Lemma In_insertSorted {A : Type} (leb : A -> A -> bool) (x y : A) (l : list A) :
  In y (insertSorted leb x l) <-> y = x \/ In y l.
Proof.
  induction l as [|a l IH]; simpl.
  - intuition.
  - destruct (leb x a); simpl; [intuition|]. rewrite IH. intuition.
Qed.

Lemma In_stableSort {A : Type} (leb : A -> A -> bool) (y : A) (l : list A) :
  In y (stableSort leb l) <-> In y l.
Proof.
  induction l as [|a l IH]; simpl; [tauto|].
  rewrite In_insertSorted, IH. intuition.
Qed.

Lemma fold_left_flat_map {A B C : Type} (f : C -> B -> C) (g : A -> list B)
  (l : list A) (c : C) :
  fold_left (fun c a => fold_left f (g a) c) l c = fold_left f (flat_map g l) c.
Proof.
  revert c. induction l as [|a l IH]; intro c; simpl; [reflexivity|].
  now rewrite fold_left_app, IH.
Qed.

Lemma getNextSessionNumber_eq (tid : string) (W : list StudyPlan) :
  getNextSessionNumber tid W = (fold_left (stepMax tid) (allSessions W) 0 + 1)%Z.
Proof.
  unfold getNextSessionNumber, allSessions.
  now rewrite (fold_left_flat_map (stepMax tid) plannedTasks).
Qed.

Lemma stepMax_fold_ge (tid : string) (l : list StudySession) (a : Z) :
  (a <= fold_left (stepMax tid) l a)%Z.
Proof.
  revert a. induction l as [|s l IH]; intro a; simpl; [lia|].
  specialize (IH (stepMax tid a s)). unfold stepMax in *.
  destruct (numberedFor tid s); lia.
Qed.

Lemma stepMax_fold_upper (tid : string) (l : list StudySession) (a : Z) :
  forall s n, In s l -> numberedFor tid s = Some n ->
              (n <= fold_left (stepMax tid) l a)%Z.
Proof.
  revert a. induction l as [|x l IH]; intros a s n Hin Hn; [destruct Hin|].
  simpl. destruct Hin as [->|Hin].
  - assert (E : stepMax tid a s = Z.max a n)
      by (unfold stepMax; now rewrite Hn).
    rewrite E. pose proof (stepMax_fold_ge tid l (Z.max a n)) as H. lia.
  - eapply IH; eassumption.
Qed.

Lemma stepMax_fold_attained (tid : string) (l : list StudySession) (a : Z) :
  fold_left (stepMax tid) l a = a
  \/ exists s, In s l /\ numberedFor tid s = Some (fold_left (stepMax tid) l a).
Proof.
  revert a. induction l as [|x l IH]; intro a; simpl; [now left|].
  destruct (IH (stepMax tid a x)) as [H|[s [Hs Hn]]].
  - rewrite H. unfold stepMax. destruct (numberedFor tid x) as [n|] eqn:E;
      [|now left].
    destruct (Z.max_spec a n) as [[_ ->]|[_ ->]]; [|now left].
    right. exists x. split; [now left|exact E].
  - right. exists s. split; [now right|exact Hn].
Qed.

(** Every number a task's sessions carry is below the next number. *)
Lemma sessionNumber_lt_next (tid : string) (W : list StudyPlan)
  (s : StudySession) (m : Z) :
  In s (allSessions W) -> taskId s = tid -> sessionNumber s = Some m ->
  (m < getNextSessionNumber tid W)%Z.
Proof.
  intros Hin Ht Hm. rewrite getNextSessionNumber_eq.
  pose proof (stepMax_fold_ge tid (allSessions W) 0) as H0.
  destruct (numberedFor tid s) as [n|] eqn:E.
  - pose proof (stepMax_fold_upper tid _ 0 s n Hin E) as H.
    unfold numberedFor in E. rewrite Ht, String.eqb_refl, Hm in E.
    destruct (m =? 0)%Z; [discriminate|]. injection E as <-. lia.
  - unfold numberedFor in E. rewrite Ht, String.eqb_refl, Hm in E.
    destruct (m =? 0)%Z eqn:E0; [|discriminate]. apply Z.eqb_eq in E0. lia.
Qed.

Lemma getNextSessionNumber_mono (tid : string) (W W' : list StudyPlan) (n : Z) :
  (forall s, In s (allSessions W') ->
             In s (allSessions W) \/ numberedFor tid s = Some n
             \/ numberedFor tid s = None) ->
  (getNextSessionNumber tid W' <= Z.max (getNextSessionNumber tid W) (n + 1))%Z.
Proof.
  intro H. rewrite !getNextSessionNumber_eq.
  pose proof (stepMax_fold_ge tid (allSessions W) 0) as H0.
  destruct (stepMax_fold_attained tid (allSessions W') 0) as [->|[s [Hs Hn]]];
    [lia|].
  destruct (H s Hs) as [Hin|[Hn'|Hn']].
  - pose proof (stepMax_fold_upper tid _ 0 s _ Hin Hn). lia.
  - rewrite Hn in Hn'. injection Hn' as Hn'. lia.
  - rewrite Hn in Hn'. discriminate.
Qed.

Lemma In_allSessions (s : StudySession) (W : list StudyPlan) :
  In s (allSessions W) <-> exists p, In p W /\ In s (plannedTasks p).
Proof. unfold allSessions. apply in_flat_map. Qed.

Lemma In_updatePlan (d : Date) (f : StudyPlan -> StudyPlan) (W : list StudyPlan)
  (p' : StudyPlan) :
  In p' (updatePlan d f W) ->
  In p' W \/ exists p, In p W /\ findPlan d W = Some p /\ p' = f p.
Proof.
  induction W as [|p W IH]; [simpl; tauto|].
  cbn [updatePlan]. rewrite findPlan_cons. destruct (date p =? d)%Z.
  - intros [<-|H]; [right; exists p; simpl; auto|simpl; auto].
  - intros [<-|H]; [simpl; auto|].
    destruct (IH H) as [H1|[q [H1 [H2 H3]]]]; [simpl; auto|].
    right. exists q. simpl. auto.
Qed.

Lemma In_allSessions_addSessionToPlan (session s : StudySession) (d : Date)
  (W : list StudyPlan) (settings : UserSettings) :
  In s (allSessions (addSessionToPlan session d W settings)) ->
  In s (allSessions W) \/ s = session.
Proof.
  unfold addSessionToPlan.
  destruct (findPlan d W) as [plan|] eqn:Hf.
  - destruct (isLocked plan); [auto|].
    rewrite !In_allSessions. intros [p' [Hp' Hs]].
    apply In_updatePlan in Hp'. destruct Hp' as [Hp'|[p [Hp [_ ->]]]].
    + left. eauto.
    + simpl in Hs. apply in_app_or in Hs. destruct Hs as [Hs|[<-|[]]]; eauto.
  - unfold allSessions. rewrite flat_map_app. intro H.
    apply in_app_or in H. destruct H as [H|H]; [auto|].
    simpl in H. destruct H as [<-|[]]. now right.
Qed.

Lemma getNextSessionNumber_addSessionToPlan (tid : string) (d : Date)
  (slot : FoundSlot) (hours : Q) (n : Z) (W : list StudyPlan)
  (settings : UserSettings) :
  (getNextSessionNumber tid W <= n)%Z ->
  (getNextSessionNumber tid
     (addSessionToPlan (freshSession tid d slot hours n) d W settings)
   <= n + 1)%Z.
Proof.
  intro H.
  pose proof (getNextSessionNumber_mono tid W
                (addSessionToPlan (freshSession tid d slot hours n) d W settings)
                n) as Hm.
  assert (Hle : (getNextSessionNumber tid
                   (addSessionToPlan (freshSession tid d slot hours n) d W settings)
                 <= Z.max (getNextSessionNumber tid W) (n + 1))%Z).
  { apply Hm. intros s Hs.
    apply In_allSessions_addSessionToPlan in Hs. destruct Hs as [Hs| ->]; [auto|].
    right. unfold numberedFor, freshSession. simpl. rewrite String.eqb_refl.
    destruct (n =? 0)%Z; auto. }
  lia.
Qed.

Section GenerationInduction.
Variable clock : Clock.
Variable settings : UserSettings.
Variable fixedCommitments : list FixedCommitment.
Variable R : list StudyPlan -> list StudyPlan -> Prop.
Hypothesis R_refl : forall W, R W W.
Hypothesis R_trans : forall W1 W2 W3, R W1 W2 -> R W2 W3 -> R W1 W3.

Section Scheduling.
Variable tasksR : list TaskR.
Hypothesis R_add :
  forall (t : TaskR) (W : list StudyPlan) (d : Date) (slot : FoundSlot)
         (hours : Q) (n : Z),
    In t tasksR ->
    (getNextSessionNumber (task_id (task t)) W <= n)%Z ->
    0 < hours ->
    findNextAvailableTimeSlot hours d W settings fixedCommitments 1 = Some slot ->
    f_date slot = d ->
    R W (addSessionToPlan (freshSession (task_id (task t)) d slot hours n)
                          d W settings).

Lemma scheduleDays_related (t : TaskR) (days : list (Date * Q)) :
  In t tasksR ->
  forall (W : list StudyPlan) (n : Z),
    (getNextSessionNumber (task_id (task t)) W <= n)%Z ->
    R W (fst (fold_left (scheduleDay t settings fixedCommitments) days (W, n))).
Proof.
  intro Ht. induction days as [|[d hours] days IH]; intros W n Hn; simpl.
  - apply R_refl.
  - destruct (Qltb 0 hours) eqn:Eh; [|now apply IH].
    destruct (findNextAvailableTimeSlot hours d W settings fixedCommitments 1)
      as [slot|] eqn:Es; [|now apply IH].
    destruct (f_date slot =? d)%Z eqn:Ed; [|now apply IH].
    apply Z.eqb_eq in Ed. apply Qltb_true in Eh.
    eapply R_trans.
    + apply (R_add t W d slot hours n); assumption.
    + apply IH. now apply getNextSessionNumber_addSessionToPlan.
Qed.

Lemma scheduleTask_related (t : TaskR) (strategy : Strategy) (W : list StudyPlan) :
  In t tasksR ->
  R W (scheduleTaskWithStrategy clock t strategy W settings fixedCommitments).
Proof.
  intro Ht. unfold scheduleTaskWithStrategy.
  destruct (Qle_bool (remainingHours t) 0); [apply R_refl|].
  destruct (getAvailableDaysForTask clock t W settings) as [|d0 ds];
    [apply R_refl|].
  apply scheduleDays_related; [exact Ht|lia].
Qed.

Lemma scheduleAll_related (strategyOf : TaskR -> Strategy) (L : list TaskR) :
  (forall t, In t L -> In t tasksR) ->
  forall W, R W (scheduleAll clock strategyOf L W settings fixedCommitments).
Proof.
  unfold scheduleAll.
  induction L as [|t L IH]; intros HL W; simpl; [apply R_refl|].
  eapply R_trans.
  - apply scheduleTask_related. apply HL. now left.
  - apply IH. intros t' Ht'. apply HL. now right.
Qed.

Lemma generateByMode_related (W : list StudyPlan) :
  R W (generateByMode clock tasksR W settings fixedCommitments).
Proof.
  unfold generateByMode, generateEvenDistributionPlan,
    generateBalancedPriorityPlan, generateEisenhowerPlan.
  destruct (studyPlanMode settings).
  - apply scheduleAll_related. intros t Ht.
    exact (proj1 (In_stableSort _ _ _) Ht).
  - eapply R_trans;
      [|apply scheduleAll_related; intros t Ht;
        exact (proj1 (proj1 (filter_In _ _ _) Ht))].
    apply scheduleAll_related. intros t Ht.
    exact (proj1 (proj1 (filter_In _ _ _) Ht)).
  - apply scheduleAll_related.
    intros t Ht. simpl in Ht.
    repeat (apply in_app_or in Ht; destruct Ht as [Ht|Ht]);
      exact (proj1 (proj1 (filter_In _ _ _) Ht)).
  - apply scheduleAll_related. intros t Ht.
    exact (proj1 (In_stableSort _ _ _) Ht).
Qed.
End Scheduling.

Hypothesis R_purge :
  forall tid W, R W (removeUnlockedTaskSessions tid W).

Lemma purgeAll_related (tasksR : list TaskR) (W : list StudyPlan) :
  R W (purgeAll tasksR W).
Proof.
  unfold purgeAll. revert W.
  induction tasksR as [|t L IH]; intro W; simpl; [apply R_refl|].
  eapply R_trans; [apply R_purge|apply IH].
Qed.

Lemma generate_related (tasks : list Task) (existingPlans : list StudyPlan) :
  (forall (t : TaskR) (W : list StudyPlan) (d : Date) (slot : FoundSlot)
          (hours : Q) (n : Z),
      In t (tasksWithRemainingHours tasks existingPlans) ->
      (getNextSessionNumber (task_id (task t)) W <= n)%Z ->
      0 < hours ->
      findNextAvailableTimeSlot hours d W settings fixedCommitments 1 = Some slot ->
      f_date slot = d ->
      R W (addSessionToPlan (freshSession (task_id (task t)) d slot hours n)
                            d W settings)) ->
  R existingPlans
    (generateNewStudyPlan clock tasks settings fixedCommitments existingPlans).
Proof.
  intro Hadd. unfold generateNewStudyPlan.
  destruct (tasksWithRemainingHours tasks existingPlans) as [|t0 L] eqn:E;
    [apply R_refl|].
  eapply R_trans; [apply purgeAll_related|].
  now apply generateByMode_related.
Qed.
End GenerationInduction.

(* ------------------------------------------------------------------ *)
(** ** Locked days are outside the frame of every pass *)

Lemma framed_generateNewStudyPlan (clock : Clock) (tasks : list Task)
  (settings : UserSettings) (fixedCommitments : list FixedCommitment)
  (existingPlans : list StudyPlan) :
  framed existingPlans
         (generateNewStudyPlan clock tasks settings fixedCommitments existingPlans).
Proof.
  apply generate_related.
  - apply framed_refl.
  - apply framed_trans.
  - apply framed_removeUnlockedTaskSessions.
  - intros. apply framed_addSessionToPlan.
Qed.

Lemma samePlace_spliceSession (session : StudySession) (p : StudyPlan) :
  isLocked p = false -> samePlace p (spliceSession session p).
Proof.
  intro H. unfold spliceSession.
  destruct (existsb _ _); [now apply samePlace_unlocked|apply samePlace_refl].
Qed.

Lemma framed_removeOriginal (session : StudySession) (planDate : Date)
  (W : list StudyPlan) :
  framed W (removeOriginal session planDate W).
Proof.
  unfold removeOriginal.
  destruct (findPlan planDate W) as [plan|] eqn:Hf; [|apply framed_refl].
  destruct (isLocked plan) eqn:Hl; [apply framed_refl|].
  apply framed_updatePlan. intros q Hq. rewrite Hf in Hq. injection Hq as <-.
  now apply samePlace_spliceSession.
Qed.

Lemma framed_redistributeOne (clock : Clock) (settings : UserSettings)
  (fixedCommitments : list FixedCommitment) (st : MissedState) (e : MissedEntry) :
  framed (ms_plans st)
         (ms_plans (redistributeOne clock settings fixedCommitments st e)).
Proof.
  unfold redistributeOne.
  destruct (findNextAvailableTimeSlot _ _ _ _ _ _) as [slot|]; simpl.
  - eapply framed_trans; [apply framed_removeOriginal|].
    apply framed_addSessionToPlan.
  - apply framed_refl.
Qed.

Lemma framed_redistribute_fold (clock : Clock) (settings : UserSettings)
  (fixedCommitments : list FixedCommitment) (entries : list MissedEntry) :
  forall st,
    framed (ms_plans st)
           (ms_plans (fold_left (redistributeOne clock settings fixedCommitments)
                                entries st)).
Proof.
  induction entries as [|e entries IH]; intro st; simpl; [apply framed_refl|].
  eapply framed_trans; [apply framed_redistributeOne|apply IH].
Qed.

Lemma framed_redistributeMissed (clock : Clock) (studyPlans : list StudyPlan)
  (settings : UserSettings) (fixedCommitments : list FixedCommitment)
  (tasks : list Task) :
  framed studyPlans
         (updatedPlans (redistributeMissedSessionsWithFeedback
                          clock studyPlans settings fixedCommitments tasks)).
Proof.
  unfold redistributeMissedSessionsWithFeedback.
  destruct (collectMissed clock studyPlans tasks) as [|e0 l];
    [apply framed_refl|].
  cbn [updatedPlans].
  apply (framed_redistribute_fold clock settings fixedCommitments _
           (mkMissedState studyPlans [] [])).
Qed.

Lemma samePlace_combinePlan (settings : UserSettings) (p : StudyPlan) :
  samePlace p (combinePlan settings p).
Proof.
  unfold combinePlan. destruct (isLocked p) eqn:E; [apply samePlace_refl|].
  now apply samePlace_unlocked.
Qed.

Lemma framed_combineSessionsOnSameDay (studyPlans : list StudyPlan)
  (settings : UserSettings) :
  framed studyPlans (combineSessionsOnSameDay studyPlans settings).
Proof. apply framed_map. apply samePlace_combinePlan. Qed.

Lemma framed_nth_error (W W' : list StudyPlan) (i : nat) (p : StudyPlan) :
  framed W W' -> nth_error W i = Some p ->
  exists p', nth_error W' i = Some p' /\ samePlace p p'.
Proof.
  intros [W1 [N [-> H]]]. revert i.
  induction H as [|q q' W W1 Hq HW IH]; intros i Hi.
  - destruct i; discriminate.
  - destruct i as [|i]; simpl in *.
    + injection Hi as <-. eauto.
    + now apply IH.
Qed.

Lemma framed_findPlan (W W' : list StudyPlan) (d : Date) (p : StudyPlan) :
  framed W W' -> findPlan d W = Some p ->
  exists p', findPlan d W' = Some p' /\ samePlace p p'.
Proof.
  intros [W1 [N [-> H]]].
  induction H as [|q q' W W1 Hq HW IH]; intro Hf; [discriminate|].
  rewrite findPlan_cons in Hf. rewrite <- app_comm_cons, findPlan_cons.
  destruct Hq as [Hd Hrest]. rewrite Hd.
  destruct (date q =? d)%Z.
  - injection Hf as <-. exists q'. repeat split; tauto.
  - now apply IH.
Qed.

Lemma flat_map_nil {A B : Type} (f : A -> list B) (l : list A) :
  (forall x, In x l -> f x = []) -> flat_map f l = [].
Proof.
  induction l as [|a l IH]; intro H; simpl; [reflexivity|].
  rewrite (H a (or_introl eq_refl)), IH; [reflexivity|].
  intros x Hx. apply H. now right.
Qed.

Lemma In_combine_seq {A : Type} (l : list A) (a i : nat) (x : A) :
  In (i, x) (combine (seq a (List.length l)) l) -> nth_error l (i - a) = Some x.
Proof.
  revert a. induction l as [|y l IH]; intros a H; [destruct H|].
  simpl in H. destruct H as [H|H].
  - injection H as <- <-. now rewrite Nat.sub_diag.
  - specialize (IH (S a) H).
    assert (Hi : (S a <= i)%nat).
    { apply in_combine_l in H. apply in_seq in H. lia. }
    replace (i - a)%nat with (S (i - S a)) by lia. exact IH.
Qed.

Lemma sessionUnchanged_same (s : StudySession) :
  sessionUnchanged s (Some s) = true.
Proof. unfold sessionUnchanged. now rewrite !Qeq_bool_refl. Qed.

Lemma violationsOf_kept (p : StudyPlan) (W' : list StudyPlan) :
  (isLocked p = true -> findPlan (date p) W' = Some p) ->
  violationsOf p W' = [].
Proof.
  intro H. unfold violationsOf.
  destruct (isLocked p) eqn:Hl; [|reflexivity].
  rewrite (H eq_refl), Hl, Nat.eqb_refl. simpl.
  apply flat_map_nil. intros [i s] Hin. simpl.
  apply In_combine_seq in Hin. rewrite Nat.sub_0_r in Hin.
  now rewrite Hin, sessionUnchanged_same.
Qed.

Lemma validate_framed (W W' : list StudyPlan) :
  framed W W' ->
  (forall p, In p W -> isLocked p = true -> findPlan (date p) W = Some p) ->
  validateLockedDaysIntegrity W W' = mkIntegrity true [].
Proof.
  intros Hfr Hfirst. unfold validateLockedDaysIntegrity.
  rewrite flat_map_nil; [reflexivity|].
  intros p Hp. apply violationsOf_kept. intro Hl.
  destruct (framed_findPlan W W' (date p) p Hfr (Hfirst p Hp Hl))
    as [p' [Hf [_ [_ Heq]]]].
  now rewrite Hf, (Heq Hl).
Qed.

Lemma NoDup_dates_first (W : list StudyPlan) :
  NoDup (map date W) ->
  forall p, In p W -> findPlan (date p) W = Some p.
Proof.
  induction W as [|q W IH]; intros Hnd p Hp; [destruct Hp|].
  inversion Hnd as [|? ? Hnotin Hnd']; subst.
  rewrite findPlan_cons. destruct Hp as [->|Hp].
  - now rewrite Z.eqb_refl.
  - destruct (date q =? date p)%Z eqn:E; [|now apply IH].
    apply Z.eqb_eq in E. exfalso. apply Hnotin. rewrite E. now apply in_map.
Qed.

(** C1. Every plan that is locked in the input of [generateNewStudyPlan],
    [redistributeMissedSessionsWithFeedback] or [combineSessionsOnSameDay]
    is found unchanged, at the same position, in the returned collection:
    same date, same flag, same sessions. When moreover each locked plan is
    the first plan of its date (as when there is one plan per date),
    [validateLockedDaysIntegrity] reports no violation. *)
Theorem locked_days_immutable (clock : Clock) (tasks : list Task)
  (settings : UserSettings) (fixedCommitments : list FixedCommitment)
  (input : list StudyPlan) :
  let generated :=
    generateNewStudyPlan clock tasks settings fixedCommitments input in
  let redistributed :=
    updatedPlans (redistributeMissedSessionsWithFeedback
                    clock input settings fixedCommitments tasks) in
  let combined := combineSessionsOnSameDay input settings in
  (forall i p, nth_error input i = Some p -> isLocked p = true ->
     nth_error generated i = Some p
     /\ nth_error redistributed i = Some p
     /\ nth_error combined i = Some p)
  /\ ((forall p, In p input -> isLocked p = true ->
         findPlan (date p) input = Some p) ->
      validateLockedDaysIntegrity input generated = mkIntegrity true []
      /\ validateLockedDaysIntegrity input redistributed = mkIntegrity true []
      /\ validateLockedDaysIntegrity input combined = mkIntegrity true []).
Proof.
  intros generated redistributed combined.
  pose proof (framed_generateNewStudyPlan clock tasks settings fixedCommitments
                input) as H1.
  pose proof (framed_redistributeMissed clock input settings fixedCommitments
                tasks) as H2.
  pose proof (framed_combineSessionsOnSameDay input settings) as H3.
  split.
  - intros i p Hi Hl.
    destruct (framed_nth_error _ _ i p H1 Hi) as [p1 [Hp1 [_ [_ E1]]]].
    destruct (framed_nth_error _ _ i p H2 Hi) as [p2 [Hp2 [_ [_ E2]]]].
    destruct (framed_nth_error _ _ i p H3 Hi) as [p3 [Hp3 [_ [_ E3]]]].
    pose proof (E1 Hl) as F1. pose proof (E2 Hl) as F2. pose proof (E3 Hl) as F3.
    subst p1 p2 p3. auto.
  - intro Hfirst. repeat split; now apply validate_framed.
Qed.

Lemma locked_days_immutable_witness :
  (forall p, In p lockedSkippedMonday -> isLocked p = true ->
             findPlan (date p) lockedSkippedMonday = Some p)
  /\ validateLockedDaysIntegrity lockedSkippedMonday
       (generateNewStudyPlan noon_2024_01_01 [reportTask]
          (weekSettings modeEisenhower) [] lockedSkippedMonday)
     = mkIntegrity true [].
Proof.
  assert (H : forall p, In p lockedSkippedMonday -> isLocked p = true ->
                        findPlan (date p) lockedSkippedMonday = Some p).
  { intros p [<-|[]] _. reflexivity. }
  split; [exact H|].
  exact (proj1 (proj2 (locked_days_immutable noon_2024_01_01 [reportTask]
                         (weekSettings modeEisenhower) [] lockedSkippedMonday)
                      H)).
Defined.

(* ------------------------------------------------------------------ *)
(** ** The cached total of a plan *)

Lemma Forall_updatePlan (P : StudyPlan -> Prop) (d : Date)
  (f : StudyPlan -> StudyPlan) (W : list StudyPlan) :
  (forall p, P p -> P (f p)) -> Forall P W -> Forall P (updatePlan d f W).
Proof.
  intros Hf H. induction H as [|p W Hp HW IH]; simpl; [constructor|].
  destruct (date p =? d)%Z; constructor; auto.
Qed.

Lemma totalOk_pushSession (session : StudySession) (p : StudyPlan) :
  totalOk (pushSession session p).
Proof. unfold totalOk. simpl. reflexivity. Qed.

Lemma totalOk_addSessionToPlan (session : StudySession) (d : Date)
  (W : list StudyPlan) (settings : UserSettings) :
  Forall totalOk W -> Forall totalOk (addSessionToPlan session d W settings).
Proof.
  intro H. unfold addSessionToPlan.
  destruct (findPlan d W) as [plan|].
  - destruct (isLocked plan); [exact H|].
    apply Forall_updatePlan; [|exact H]. intros. apply totalOk_pushSession.
  - apply Forall_app. split; [exact H|].
    constructor; [apply totalOk_pushSession|constructor].
Qed.

Lemma totalOk_purgePlan (tid : string) (p : StudyPlan) :
  totalOk p -> totalOk (purgePlan tid p).
Proof.
  intro H. unfold purgePlan. destruct (isLocked p); [exact H|].
  unfold totalOk. simpl. reflexivity.
Qed.

Lemma Forall_map_preserved {A : Type} (P : A -> Prop) (f : A -> A) (l : list A) :
  (forall x, P x -> P (f x)) -> Forall P l -> Forall P (map f l).
Proof. intros Hf H. induction H; simpl; constructor; auto. Qed.

(** Generation recomputes the total of every plan it touches. *)
Lemma totals_kept_by_generateNewStudyPlan (clock : Clock) (tasks : list Task)
  (settings : UserSettings) (fixedCommitments : list FixedCommitment)
  (existingPlans : list StudyPlan) :
  Forall totalOk existingPlans ->
  Forall totalOk
    (generateNewStudyPlan clock tasks settings fixedCommitments existingPlans).
Proof.
  apply (generate_related clock settings fixedCommitments
           (fun W W' => Forall totalOk W -> Forall totalOk W')).
  - auto.
  - auto.
  - intros tid W. apply Forall_map_preserved. apply totalOk_purgePlan.
  - intros. now apply totalOk_addSessionToPlan.
Qed.

Lemma totalOk_spliceSession (session : StudySession) (p : StudyPlan) :
  totalOk p -> totalOk (spliceSession session p).
Proof.
  intro H. unfold spliceSession. destruct (existsb _ _); [|exact H].
  unfold totalOk. simpl. reflexivity.
Qed.

Lemma totals_kept_by_redistributeMissed (clock : Clock)
  (studyPlans : list StudyPlan) (settings : UserSettings)
  (fixedCommitments : list FixedCommitment) (tasks : list Task) :
  Forall totalOk studyPlans ->
  Forall totalOk
    (updatedPlans (redistributeMissedSessionsWithFeedback
                     clock studyPlans settings fixedCommitments tasks)).
Proof.
  intro H. unfold redistributeMissedSessionsWithFeedback.
  destruct (collectMissed clock studyPlans tasks) as [|e0 l]; [exact H|].
  cbn [updatedPlans].
  assert (Hfold : forall entries st,
             Forall totalOk (ms_plans st) ->
             Forall totalOk
               (ms_plans (fold_left
                            (redistributeOne clock settings fixedCommitments)
                            entries st))).
  { induction entries as [|e entries IH]; intros st Hst; simpl; [exact Hst|].
    apply IH. unfold redistributeOne.
    destruct (findNextAvailableTimeSlot _ _ _ _ _ _); simpl; [|exact Hst].
    apply totalOk_addSessionToPlan. unfold removeOriginal.
    destruct (findPlan _ _) as [plan|]; [|exact Hst].
    destruct (isLocked plan); [exact Hst|].
    apply Forall_updatePlan; [|exact Hst]. apply totalOk_spliceSession. }
  apply Hfold. exact H.
Qed.

Lemma totals_kept_by_combineSessionsOnSameDay (studyPlans : list StudyPlan)
  (settings : UserSettings) :
  Forall totalOk studyPlans ->
  Forall totalOk (combineSessionsOnSameDay studyPlans settings).
Proof.
  apply Forall_map_preserved. intros p H. unfold combinePlan.
  destruct (isLocked p); [exact H|]. unfold totalOk. simpl. reflexivity.
Qed.

(** C6. Evicting the skipped session from the locked Monday subtracts its
    hour from a total that never counted it: the plan is left without
    sessions and with [totalStudyHours = -1], although every plan of the
    input satisfied the invariant. *)
Theorem eviction_breaks_totalStudyHours :
  Forall totalOk lockedSkippedMonday
  /\ exists p,
       nth_error (modifiedPlans
                    (redistributeFromLockedDays noon_2024_01_01
                       lockedSkippedMonday [reportTask] (weekSettings modeEven) []))
                 0 = Some p
       /\ plannedTasks p = []
       /\ totalStudyHours p == -1
       /\ ~ totalOk p.
Proof.
  split.
  - repeat constructor.
  - eexists. split; [vm_compute; reflexivity|].
    split; [reflexivity|]. split; [reflexivity|].
    intro H. discriminate H.
Qed.

(* ------------------------------------------------------------------ *)
(** ** What a call does to the caller's collection *)

Lemma snapshot_eq (h : Heap) (a : nat) :
  snapshot h a = flat_map (deref (objects h)) (readArray h a).
Proof. reflexivity. Qed.





Lemma setNth_length {A : Type} (l : list A) (i : nat) (v : A) :
  List.length (setNth l i v) = List.length l.
Proof.
  revert i. induction l as [|x l IH]; intros [|i]; simpl; auto.
Qed.

Lemma nth_error_setNth {A : Type} (l : list A) (i j : nat) (v : A) :
  nth_error (setNth l i v) j
  = if (j =? i)%nat then option_map (fun _ => v) (nth_error l j)
    else nth_error l j.
Proof.
  revert i j. induction l as [|x l IH]; intros [|i] [|j]; simpl; auto;
    destruct (_ =? _)%nat; reflexivity.
Qed.







(** The array copy of [combineSessionsOnSameDay] shares the plan objects: two
    sessions of one task are merged in the caller's own Monday plan. *)
Lemma combineSessionsOnSameDay_shares_plan_objects :
  let h := mkHeap [mkPlan (planOf monday) monday
                          [sessionOf "report" (Some 1%Z) 540 1 scheduled;
                           sessionOf "report" (Some 2%Z) 600 1 scheduled]
                          2 8 false] [[0%nat]] in
  let h' := fst (combineSessionsOnSameDay_store h 0 (weekSettings modeEven)) in
  map (fun p => List.length (plannedTasks p)) (snapshot h 0) = [2%nat]
  /\ map (fun p => List.length (plannedTasks p)) (snapshot h' 0) = [1%nat].
Proof. split; reflexivity. Qed.





(* ------------------------------------------------------------------ *)
(** ** The merge pass on the store and on values *)

Lemma writeObject_objects (h : Heap) (o : nat) (f : StudyPlan -> StudyPlan) :
  forall o', nth_error (objects (writeObject h o f)) o'
             = if (o' =? o)%nat then option_map f (nth_error (objects h) o')
               else nth_error (objects h) o'.
Proof.
  intro o'. unfold writeObject.
  destruct (nth_error (objects h) o) as [p|] eqn:Hp; cbn [objects].
  - rewrite nth_error_setNth. destruct (o' =? o)%nat eqn:E; [|reflexivity].
    apply Nat.eqb_eq in E. subst. now rewrite Hp.
  - destruct (o' =? o)%nat eqn:E; [|reflexivity].
    apply Nat.eqb_eq in E. subst. now rewrite Hp.
Qed.

Lemma writeObject_arrays (h : Heap) (o : nat) (f : StudyPlan -> StudyPlan) :
  arrays (writeObject h o f) = arrays h.
Proof.
  unfold writeObject. destruct (nth_error (objects h) o); reflexivity.
Qed.

Lemma writeAll_objects (f : StudyPlan -> StudyPlan) (addrs : list nat) :
  NoDup addrs ->
  forall h o,
    nth_error (objects (fold_left (fun h o => writeObject h o f) addrs h)) o
    = if existsb (Nat.eqb o) addrs then option_map f (nth_error (objects h) o)
      else nth_error (objects h) o.
Proof.
  induction 1 as [|a addrs Hnotin Hnd IH]; intros h o; [reflexivity|].
  cbn [fold_left existsb]. rewrite IH, writeObject_objects.
  destruct (o =? a)%nat eqn:E; [|reflexivity].
  apply Nat.eqb_eq in E. subst.
  destruct (existsb (Nat.eqb a) addrs) eqn:Ex; [|reflexivity].
  exfalso. apply Hnotin. apply existsb_exists in Ex.
  destruct Ex as [x [Hx Hax]]. apply Nat.eqb_eq in Hax. now subst.
Qed.

Lemma writeAll_arrays (f : StudyPlan -> StudyPlan) (addrs : list nat) :
  forall h, arrays (fold_left (fun h o => writeObject h o f) addrs h) = arrays h.
Proof.
  induction addrs as [|a addrs IH]; intro h; [reflexivity|].
  cbn [fold_left]. now rewrite IH, writeObject_arrays.
Qed.

(** When the caller's array holds pairwise distinct plan objects, the array
    the merge pass returns reads as [combineSessionsOnSameDay] of the
    caller's plans, and so does, afterwards, the caller's own array. *)
Lemma combineSessionsOnSameDay_store_values (h : Heap) (a : nat)
  (settings : UserSettings) :
  (a < List.length (arrays h))%nat -> NoDup (readArray h a) ->
  let r := combineSessionsOnSameDay_store h a settings in
  snapshot (fst r) (snd r) = combineSessionsOnSameDay (snapshot h a) settings
  /\ snapshot (fst r) a = combineSessionsOnSameDay (snapshot h a) settings.
Proof.
  intros Ha Hnd r. subst r. unfold combineSessionsOnSameDay_store.
  cbn [fst snd]. rewrite !snapshot_eq.
  set (h1 := mkHeap (objects h) (arrays h ++ [readArray h a])).
  set (h2 := fold_left (fun h0 o => writeObject h0 o (combinePlan settings))
                       (readArray h a) h1).
  assert (Harr : arrays h2 = arrays h ++ [readArray h a])
    by (subst h2; now rewrite writeAll_arrays).
  assert (Hnew : readArray h2 (List.length (arrays h)) = readArray h a).
  { unfold readArray at 1. rewrite Harr, app_nth2, Nat.sub_diag by lia.
    reflexivity. }
  assert (Hold : readArray h2 a = readArray h a).
  { unfold readArray at 1. rewrite Harr, app_nth1 by exact Ha. reflexivity. }
  rewrite Hnew, Hold.
  assert (E : forall addrs0,
             (forall o, In o addrs0 -> In o (readArray h a)) ->
             flat_map (deref (objects h2)) addrs0
             = combineSessionsOnSameDay (flat_map (deref (objects h)) addrs0)
                                        settings).
  { induction addrs0 as [|o addrs0 IH]; intro Hsub; [reflexivity|].
    cbn [flat_map]. unfold combineSessionsOnSameDay in *.
    rewrite map_app, <- IH by (intros o' Ho'; apply Hsub; now right).
    f_equal. unfold deref at 1 2. subst h2.
    rewrite writeAll_objects by exact Hnd.
    assert (Hex : existsb (Nat.eqb o) (readArray h a) = true).
    { apply existsb_exists. exists o.
      split; [apply Hsub; now left|apply Nat.eqb_refl]. }
    rewrite Hex. subst h1. cbn [objects].
    destruct (nth_error (objects h) o); reflexivity. }
  split; apply E; auto.
Qed.

(* ------------------------------------------------------------------ *)
(** ** Session numbers *)

Lemma In_updatePlan_mono (d : Date) (f : StudyPlan -> StudyPlan)
  (W : list StudyPlan) (p : StudyPlan) :
  In p W -> In p (updatePlan d f W) \/ In (f p) (updatePlan d f W).
Proof.
  induction W as [|q W IH]; [intros []|].
  cbn [updatePlan]. destruct (date q =? d)%Z.
  - intros [->|H]; [right; now left|left; now right].
  - intros [->|H]; [left; now left|].
    destruct (IH H); [left|right]; now right.
Qed.

Lemma allSessions_addSessionToPlan_mono (session s : StudySession) (d : Date)
  (W : list StudyPlan) (settings : UserSettings) :
  In s (allSessions W) -> In s (allSessions (addSessionToPlan session d W settings)).
Proof.
  unfold addSessionToPlan.
  destruct (findPlan d W) as [plan|].
  - destruct (isLocked plan); [auto|].
    rewrite !In_allSessions. intros [p [Hp Hs]].
    destruct (In_updatePlan_mono d (pushSession session) W p Hp) as [H|H].
    + eauto.
    + exists (pushSession session p). split; [exact H|].
      simpl. apply in_or_app. now left.
  - unfold allSessions. rewrite flat_map_app. intro H. apply in_or_app. now left.
Qed.

Lemma StudySession_eq_dec (a b : StudySession) : {a = b} + {a <> b}.
Proof.
  repeat decide equality; try apply Z.eq_dec; try apply Pos.eq_dec;
    try apply string_dec.
Qed.

Lemma grownFresh_refl (W : list StudyPlan) : grownFresh W W.
Proof.
  split; [auto|]. split; [auto|]. intros s1 s2 H1 _ H. contradiction.
Qed.

Lemma exceedsAll_mono (s : StudySession) (W W' : list StudyPlan) :
  (forall s0, In s0 (allSessions W) -> In s0 (allSessions W')) ->
  exceedsAll s W' -> exceedsAll s W.
Proof.
  intros Hsub [n [Hn H]]. exists n. split; [exact Hn|]. eauto.
Qed.

Lemma grownFresh_trans (W1 W2 W3 : list StudyPlan) :
  grownFresh W1 W2 -> grownFresh W2 W3 -> grownFresh W1 W3.
Proof.
  intros [A1 [A2 A3]] [B1 [B2 B3]].
  split; [auto|]. split.
  - intros s Hs. destruct (B2 s Hs) as [H|H]; [auto|].
    right. eapply exceedsAll_mono; eassumption.
  - intros s1 s2 H1 H2 N1 N2 Ht Hn.
    destruct (in_dec StudySession_eq_dec s1 (allSessions W2)) as [I1|I1];
      destruct (in_dec StudySession_eq_dec s2 (allSessions W2)) as [I2|I2].
    + now apply A3.
    + exfalso. destruct (B2 s2 H2) as [H|[n [Hn2 H]]]; [contradiction|].
      rewrite Hn2 in Hn. specialize (H s1 n I1 Ht Hn). lia.
    + exfalso. destruct (B2 s1 H1) as [H|[n [Hn1 H]]]; [contradiction|].
      rewrite Hn1 in Hn. symmetry in Hn, Ht. specialize (H s2 n I2 Ht Hn). lia.
    + now apply B3.
Qed.

Lemma grownFresh_addSessionToPlan (tid : string) (d : Date) (slot : FoundSlot)
  (hours : Q) (n : Z) (W : list StudyPlan) (settings : UserSettings) :
  (getNextSessionNumber tid W <= n)%Z ->
  grownFresh W (addSessionToPlan (freshSession tid d slot hours n) d W settings).
Proof.
  intro Hn. split; [|split].
  - intros s. apply allSessions_addSessionToPlan_mono.
  - intros s Hs. apply In_allSessions_addSessionToPlan in Hs.
    destruct Hs as [Hs| ->]; [now left|]. right.
    exists n. split; [reflexivity|]. intros s0 m H0 Ht Hm.
    pose proof (sessionNumber_lt_next tid W s0 m H0 Ht Hm). lia.
  - intros s1 s2 H1 H2 N1 N2 _ _.
    apply In_allSessions_addSessionToPlan in H1, H2.
    destruct H1 as [H1| ->]; [contradiction|].
    destruct H2 as [H2| ->]; [contradiction|reflexivity].
Qed.

Lemma grownFresh_generate (clock : Clock) (tasks : list Task)
  (settings : UserSettings) (fixedCommitments : list FixedCommitment)
  (input : list StudyPlan) :
  grownFresh (purgeAll (tasksWithRemainingHours tasks input) input)
             (generateNewStudyPlan clock tasks settings fixedCommitments input).
Proof.
  unfold generateNewStudyPlan.
  destruct (tasksWithRemainingHours tasks input) as [|t0 L] eqn:E;
    [apply grownFresh_refl|].
  apply generateByMode_related.
  - apply grownFresh_refl.
  - apply grownFresh_trans.
  - intros. now apply grownFresh_addSessionToPlan.
Qed.

Lemma In_collectMissed (clock : Clock) (W : list StudyPlan) (tasks : list Task)
  (e : MissedEntry) :
  In e (collectMissed clock W tasks) -> In (m_session e) (allSessions W).
Proof.
  unfold collectMissed. intro H.
  apply in_flat_map in H. destruct H as [p [Hp H]].
  destruct (isLocked p || (today clock <=? date p)%Z); [destruct H|].
  apply in_flat_map in H. destruct H as [s [Hs H]].
  destruct (_ && _); [|destruct H].
  destruct (findTask (taskId s) tasks) as [t|]; [|destruct H].
  destruct (isPending t); [|destruct H].
  destruct H as [<-|[]]. simpl. apply In_allSessions. eauto.
Qed.

Lemma moved_sessions_keep_numbers (clock : Clock) (settings : UserSettings)
  (fixedCommitments : list FixedCommitment) (W0 : list StudyPlan)
  (entries : list MissedEntry) :
  (forall e, In e entries -> In (m_session e) (allSessions W0)) ->
  forall st,
    (forall s, In s (ms_moved st) ->
       exists s0, In s0 (allSessions W0) /\ taskId s = taskId s0
                  /\ sessionNumber s = sessionNumber s0) ->
    forall s,
      In s (ms_moved (fold_left (redistributeOne clock settings fixedCommitments)
                                entries st)) ->
      exists s0, In s0 (allSessions W0) /\ taskId s = taskId s0
                 /\ sessionNumber s = sessionNumber s0.
Proof.
  induction entries as [|e entries IH]; intros He st Hst; simpl; [exact Hst|].
  apply IH; [intros e' He'; apply He; now right|].
  unfold redistributeOne.
  destruct (findNextAvailableTimeSlot _ _ _ _ _ _) as [slot|]; simpl; [|exact Hst].
  intros s Hs. apply in_app_or in Hs. destruct Hs as [Hs|[<-|[]]]; [auto|].
  exists (m_session e). split; [apply He; now left|]. split; reflexivity.
Qed.

(** C8 (as stated, refuted). Generating twice in a row: the first pass
    numbers the report's sessions 1 to 5; the second pass removes all five
    and creates five sessions numbered 1 to 5 again, none of them greater
    than the numbers assigned before. *)
Lemma session_numbers_are_reused :
  let settings := weekSettings modeEven in
  let P1 := generateNewStudyPlan noon_2024_01_01 [reportTask] settings [] [] in
  let P2 := generateNewStudyPlan noon_2024_01_01 [reportTask] settings [] P1 in
  map sessionNumber (allSessions P1)
  = [Some 1; Some 2; Some 3; Some 4; Some 5]%Z
  /\ allSessions (purgeAll (tasksWithRemainingHours [reportTask] P1) P1) = []
  /\ map sessionNumber (allSessions P2)
     = [Some 1; Some 2; Some 3; Some 4; Some 5]%Z.
Proof. repeat split; vm_compute; reflexivity. Qed.

(** C8 (amended). A generation pass keeps the sessions that survive its
    purge and creates sessions whose number is strictly greater than every
    number their task has among the survivors; two sessions it creates for
    one task never share a number. (Numbers of purged sessions are assigned
    again.) A session moved by missed-session redistribution keeps the task
    and the number of the session it replaces. *)
Theorem session_numbers_fresh_among_survivors (clock : Clock) (tasks : list Task)
  (settings : UserSettings) (fixedCommitments : list FixedCommitment)
  (input : list StudyPlan) :
  let survivors := purgeAll (tasksWithRemainingHours tasks input) input in
  let output :=
    generateNewStudyPlan clock tasks settings fixedCommitments input in
  (forall s, In s (allSessions survivors) -> In s (allSessions output))
  /\ (forall s, In s (allSessions output) ->
        In s (allSessions survivors)
        \/ exists n, sessionNumber s = Some n
                     /\ forall s0 m, In s0 (allSessions survivors) ->
                                     taskId s0 = taskId s ->
                                     sessionNumber s0 = Some m -> (m < n)%Z)
  /\ (forall s1 s2, In s1 (allSessions output) -> In s2 (allSessions output) ->
        ~ In s1 (allSessions survivors) -> ~ In s2 (allSessions survivors) ->
        taskId s1 = taskId s2 -> sessionNumber s1 = sessionNumber s2 -> s1 = s2)
  /\ (forall s,
        In s (movedSessions (redistributeMissedSessionsWithFeedback
                               clock input settings fixedCommitments tasks)) ->
        exists s0, In s0 (allSessions input) /\ taskId s = taskId s0
                   /\ sessionNumber s = sessionNumber s0).
Proof.
  intros survivors output.
  destruct (grownFresh_generate clock tasks settings fixedCommitments input)
    as [H1 [H2 H3]].
  split; [exact H1|]. split; [exact H2|]. split; [exact H3|].
  unfold redistributeMissedSessionsWithFeedback.
  destruct (collectMissed clock input tasks) as [|e0 l] eqn:Hc;
    [intros s []|].
  cbn [movedSessions].
  apply (moved_sessions_keep_numbers clock settings fixedCommitments input).
  - intros e He. apply (In_collectMissed clock input tasks).
    rewrite Hc. exact (proj1 (In_stableSort _ _ _) He).
  - intros s [].
Qed.

(* ------------------------------------------------------------------ *)
(** ** Conservation of a task's hours *)

























(* ------------------------------------------------------------------ *)
(** ** What the purge keeps *)













(* ------------------------------------------------------------------ *)
(** ** Remaining hours, plan by plan *)














(* ------------------------------------------------------------------ *)
(** ** A second generation pass sees the same remaining hours *)









Lemma purgeAll_cons (t : TaskR) (L : list TaskR) (W : list StudyPlan) :
  purgeAll (t :: L) W = purgeAll L (removeUnlockedTaskSessions (task_id (task t)) W).
Proof. reflexivity. Qed.




(* ------------------------------------------------------------------ *)
(** ** Purging the output of a pass

    The purge of a pass's output gives back the purged input, followed by
    one empty plan for each plan the pass created. *)










(* ------------------------------------------------------------------ *)
(** ** Scheduling over a collection padded with empty plans

    An empty, unlocked plan answers every query of the scheduler as an
    absent plan does, and receives the session the scheduler would have
    created a plan for. *)









Section PaddedQueries.
Variable settings : UserSettings.
Variable fixedCommitments : list FixedCommitment.
Variable W : list StudyPlan.
Variable N : list Date.





End PaddedQueries.





Section PaddedRun.
Variable clock : Clock.
Variable settings : UserSettings.
Variable fixedCommitments : list FixedCommitment.
Variable P : list StudyPlan.





End PaddedRun.



(* ------------------------------------------------------------------ *)
(** ** Idempotence of generation *)




(* ------------------------------------------------------------------ *)
(** ** When every allocation finds its window *)









Lemma getAvailableDaysForTask_deadline (clock : Clock) (t t' : TaskR)
  (W : list StudyPlan) (settings : UserSettings) :
  deadline (task t) = deadline (task t') ->
  getAvailableDaysForTask clock t W settings
  = getAvailableDaysForTask clock t' W settings.
Proof.
  intro H. unfold getAvailableDaysForTask, bufferedDeadline. now rewrite H.
Qed.










(* ------------------------------------------------------------------ *)
(** ** The scenarios of the specification *)

(** Scenario A: five hours due Friday, one of them on a locked Monday: one
    hour on each of the four remaining days, five hours in all. *)
Example scenario_A :
  let lockedMonday :=
    [mkPlan (planOf monday) monday
            [sessionOf "report" (Some 1%Z) 540 1 scheduled] 1 8 true] in
  let output :=
    generateNewStudyPlan noon_2024_01_01 [reportTask] (weekSettings modeEven)
                         [] lockedMonday in
  map (fun p => (date p, map (fun s => Qred (allocatedHours s)) (plannedTasks p)))
      output
  = [(monday, [1]); ((monday + 1)%Z, [1]); ((monday + 2)%Z, [1]);
     ((monday + 3)%Z, [1]); ((monday + 4)%Z, [1])]
  /\ Qred (taskHours "report" output) = 5.
Proof. split; vm_compute; reflexivity. Qed.

(** Scenario B: the same task in balanced mode: the locked hour stays, and
    the four remaining hours are shared out again, five hours in all. *)
Example scenario_B :
  let lockedMonday :=
    mkPlan (planOf monday) monday
           [sessionOf "report" (Some 1%Z) 540 1 scheduled] 1 8 true in
  let output :=
    generateNewStudyPlan noon_2024_01_01 [reportTask]
                         (weekSettings modeBalanced) [] [lockedMonday] in
  nth_error output 0 = Some lockedMonday
  /\ Qred (sumQ (map (fun p => taskHours "report" [p]) (skipn 1 output))) = 4
  /\ Qred (taskHours "report" output) = 5.
Proof. repeat split; vm_compute; reflexivity. Qed.

(** Scenario C: yesterday's unfinished session moves to a slot of today:
    yesterday's plan loses it, and the copy is marked as rescheduled with
    yesterday as the day it came from. *)
Example scenario_C :
  let yesterday := (monday - 1)%Z in
  let r :=
    redistributeMissedSessionsWithFeedback noon_2024_01_01
      [mkPlan (planOf yesterday) yesterday
              [sessionOf "report" (Some 1%Z) 540 1 scheduled] 1 8 false]
      (weekSettings modeEven) [] [reportTask] in
  map (fun p => (date p,
                 map (fun s => (Qred (startTime s), Qred (allocatedHours s),
                                sessionNumber s, status s, originalDate s))
                     (plannedTasks p)))
      (updatedPlans r)
  = [(yesterday, []);
     (monday, [(480, 1, Some 1%Z, rescheduled, Some yesterday)])]
  /\ success (feedback r) = true.
Proof. split; vm_compute; reflexivity. Qed.

(** Scenario D: a day with only completed or skipped sessions can be locked;
    one pending session prevents it and is counted. *)
Example scenario_D :
  canLockDay monday
    [mkPlan (planOf monday) monday
            [sessionOf "report" (Some 1%Z) 540 1 completed;
             sessionOf "report" (Some 2%Z) 600 1 skipped] 1 8 false]
  = mkLockCheck true None
  /\ canLockDay monday
       [mkPlan (planOf monday) monday
               [sessionOf "report" (Some 1%Z) 540 1 scheduled] 1 8 false]
     = mkLockCheck false (Some 1%nat).
Proof. split; reflexivity. Qed.

(** Scenario E: one hour at 09:00 and an hour and a half at 10:00 of the same
    task merge into two and a half hours from 09:00 to 11:30. *)
Example scenario_E :
  map (fun p => map (fun s => (Qred (startTime s), Qred (endTime s),
                               Qred (allocatedHours s), sessionNumber s))
                    (plannedTasks p))
      (combineSessionsOnSameDay
         [mkPlan (planOf monday) monday
                 [sessionOf "report" (Some 1%Z) 540 1 scheduled;
                  sessionOf "report" (Some 2%Z) 600 (3 # 2) scheduled]
                 (5 # 2) 8 false]
         (weekSettings modeEven))
  = [[(540, 690, 5 # 2, Some 1%Z)]].
Proof. vm_compute. reflexivity. Qed.

